(** * pypsd: the section decoders of [pypsd/sections.py]

    A shallow embedding of [validate], [PSDHeader], [PSDColorMode],
    [PSDImageResources], [PSDLayerMask] and [PSDLayer], and the
    properties of the specification that concern them.

    The decoders run over one shared file object in a single forward
    pass; a failing read or check raises and abandons the object being
    built.  The embedding threads the file cursor through a state and
    exception monad. *)

From Stdlib Require Import ZArith List String Ascii Lia DecimalString.
From Stdlib.Strings Require Import Byte.
From stdpp Require Import base gmap strings list.

Local Open Scope Z_scope.

(** ** Python values and exceptions *)

(** The values the readers hand to [validate]: integers and text. *)
Inductive pyval : Type :=
| PyInt (n : Z)
| PyStr (s : string).

#[global] Instance pyval_eq_dec : EqDecision pyval.
Proof. solve_decision. Defined.

(** [str(n)] for an integer: decimal digits with a leading minus sign. *)
Definition str_of_Z (n : Z) : string := NilZero.string_of_int (Z.to_int n).

(** [str(v)], what the [%s] conversion prints. *)
Definition py_str (v : pyval) : string :=
  match v with
  | PyInt n => str_of_Z n
  | PyStr s => s
  end.

(** Truth value of a Python object in an [if]. *)
Definition truthy (v : pyval) : bool :=
  match v with
  | PyInt n => negb (n =? 0)
  | PyStr s => negb (String.eqb s "")
  end.

(** [str(l)] for a list of integers: ["[1, 8, 16]"]. *)
Fixpoint str_of_items (l : list Z) : string :=
  match l with
  | [] => ""
  | [x] => str_of_Z x
  | x :: xs => str_of_Z x +:+ ", " +:+ str_of_items xs
  end.

Definition str_of_list (l : list Z) : string := "[" +:+ str_of_items l +:+ "]".

(** The exceptions the decoders raise.  [TruncationError] is the reader's
    failure on a short source; the others are Python's own. *)
Inductive exn : Type :=
| BaseException (msg : string)
| KeyError (key : pyval)
| AssertionError
| IndexError
| TypeError (msg : string)
| TruncationError (requested available : Z).

(** ** Ranges *)

(** A [range(start, stop)] object: membership, first and last element,
    truth value. *)
Record pyrange : Type := Range { start : Z; stop : Z }.

Definition range_contains (r : pyrange) (v : pyval) : bool :=
  match v with
  | PyInt n => (start r <=? n) && (n <? stop r)
  | PyStr _ => false
  end.

Definition range_first (r : pyrange) : Z := start r.
Definition range_last (r : pyrange) : Z := stop r - 1.
Definition range_truthy (r : pyrange) : bool := start r <? stop r.

Definition list_contains (l : list Z) (v : pyval) : bool :=
  match v with
  | PyInt n => existsb (Z.eqb n) l
  | PyStr _ => false
  end.

Definition list_truthy (l : list Z) : bool :=
  match l with [] => false | _ :: _ => true end.

(** ** validate *)

(** [validate(label, value, range=None, mustBe=None, list=None)].
    [None] is the result of a call that returns; [Some e] is the raised
    exception.  The two [assert] statements at the top of the function
    require [label], and one of [value], [range], [list], not to be
    [None]: [label] is a string and [value] a decoded value here, so
    both hold. *)
Definition validate (label : string) (value : pyval)
    (range : option pyrange) (mustBe : option pyval) (list : option (list Z))
  : option exn :=
  if from_option truthy false mustBe then
    match mustBe with
    | Some m =>
        if bool_decide (value ≠ m) then
          Some (BaseException
                  (label +:+ " should be " +:+ py_str m +:+ " but was " +:+ py_str value))
        else None
    | None => None
    end
  else if from_option range_truthy false range then
    match range with
    | Some r =>
        if negb (range_contains r value) then
          Some (BaseException
                  (label +:+ " must be between " +:+ str_of_Z (range_first r)
                   +:+ " and " +:+ str_of_Z (range_last r)
                   +:+ ", but was " +:+ py_str value))
        else None
    | None => None
    end
  else if from_option list_truthy false list then
    match list with
    | Some l =>
        if negb (list_contains l value) then
          Some (BaseException
                  (label +:+ " must be one of " +:+ str_of_list l
                   +:+ ", but was " +:+ py_str value))
        else None
    | None => None
    end
  else None.

(** ** The file cursor *)

(** The opened file: the absolute offset reached and the bytes from
    there to the end of the source. *)
Record cursor : Type := Cursor { tell : Z; rest : list byte }.

Definition getsize (f : cursor) : Z := tell f + Z.of_nat (length (rest f)).

(** Outcome of a decoding step: a value and the advanced cursor, or a
    raised exception. *)
Inductive result (A : Type) : Type :=
| Ok (a : A) (f : cursor)
| Raise (e : exn).
Arguments Ok {A} a f.
Arguments Raise {A} e.

Definition M (A : Type) : Type := cursor → result A.

#[global] Instance M_ret : MRet M := fun A a f => Ok a f.

#[global] Instance M_bind : MBind M := fun A B k m f =>
  match m f with
  | Ok a f' => k a f'
  | Raise e => Raise e
  end.

Definition raise {A} (e : exn) : M A := fun _ => Raise e.

(** A call of [validate] inside a decoder. *)
Definition check (r : option exn) : M unit :=
  match r with
  | None => mret tt
  | Some e => raise e
  end.

(** ** PSDParserBase: the readers *)

(** Modelled from the spec: the [read] of the file object under
    [PSDParserBase] (module [pypsd.sectionbase], absent from the
    sources).  Reading past the end of the source fails with a
    truncation error naming the requested size and the bytes available. *)
Definition read (n : nat) : M (list byte) := fun f =>
  if (n <=? length (rest f))%nat then
    Ok (take n (rest f)) (Cursor (tell f + Z.of_nat n) (drop n (rest f)))
  else Raise (TruncationError (Z.of_nat n) (Z.of_nat (length (rest f)))).

(** Big-endian value of a byte string. *)
Definition be_uint (bs : list byte) : Z :=
  fold_left (fun acc b => acc * 256 + Z.of_N (Byte.to_N b)) bs 0.

(** Two's complement reading of a [w]-bit unsigned value. *)
Definition to_signed (w : Z) (u : Z) : Z :=
  if u <? 2 ^ (w - 1) then u else u - 2 ^ w.

(** Modelled from the spec: [PSDParserBase.readString], read exactly
    [n] bytes as text. *)
Definition readString (n : nat) : M string :=
  bs ← read n ; mret (string_of_list_byte bs).

(** Modelled from the spec: [PSDParserBase.readShortInt], a big-endian
    16-bit read.  The layer count and the channel identifier, both read
    through it, are signed 16-bit values, and [PSDLayerMask.parse] tests
    the result for [< 0]: the read is two's complement. *)
Definition readShortInt : M Z :=
  bs ← read 2 ; mret (to_signed 16 (be_uint bs)).

(** Modelled from the spec: [PSDParserBase.readInt], a big-endian
    unsigned 32-bit read. *)
Definition readInt : M Z :=
  bs ← read 4 ; mret (be_uint bs).

(** Modelled from the spec: [PSDParserBase.readTinyInt], an unsigned
    8-bit read. *)
Definition readTinyInt : M Z :=
  bs ← read 1 ; mret (be_uint bs).

(** A rectangle: top, left, bottom, right. *)
Record rectangle_t : Type :=
  Rectangle { r_top : Z; r_left : Z; r_bottom : Z; r_right : Z }.

(** Modelled from the spec: [PSDParserBase.getRectangle], four
    big-endian signed 32-bit integers. *)
Definition getRectangle : M rectangle_t :=
  t ← read 4; l ← read 4; b ← read 4; r ← read 4;
  mret (Rectangle (to_signed 32 (be_uint t)) (to_signed 32 (be_uint l))
                 (to_signed 32 (be_uint b)) (to_signed 32 (be_uint r))).

(** The eight bits of a byte, most significant first: index 0 is bit 7. *)
Definition bits_of_byte (b : byte) : list bool :=
  map (Z.testbit (Z.of_N (Byte.to_N b))) [7; 6; 5; 4; 3; 2; 1; 0].

(** Modelled from the spec: [PSDParserBase.readBits], read [n] bytes and
    decompose the first one into its bits, most significant first. *)
Definition readBits (n : nat) : M (list bool) :=
  bs ← read n;
  mret (match bs with
       | b :: _ => bits_of_byte b
       | [] => []
       end).

(** Modelled from the spec: [PSDParserBase.skip], advance by [n] bytes
    without interpreting them; a skip past the end is a truncation. *)
Definition skip (n : Z) : M unit :=
  read (Z.to_nat n) ;; mret tt.

(** Modelled from the spec: [PSDParserBase.updateLength], read the
    32-bit length that opens a section into [self.length]. *)
Definition updateLength : M Z := readInt.

(** Modelled from the spec: the constants of [PSDParserBase]. *)
Definition SIGNATURE : string := "8BPS".
Definition SIGNATIRE_8BIM : string := "8BIM".
Definition VERSION : Z := 1.
Definition CHANNELS_RANGE : pyrange := Range 1 57.
Definition SIZE_RANGE : pyrange := Range 1 30001.
Definition DEPTH_LIST : list Z := [1; 8; 16].

(** [seq[i]] on a Python list. *)
Definition index {A} (l : list A) (i : nat) : M A :=
  match l !! i with
  | Some x => mret x
  | None => raise IndexError
  end.

(** [d[k]] on a Python dict: a missing key raises [KeyError]. *)
Definition getitem `{Countable K} {V} (key : K → pyval) (d : gmap K V) (k : K) : M V :=
  match d !! k with
  | Some v => mret v
  | None => raise (KeyError (key k))
  end.

(** Modelled from the spec: [PSDParserBase.__init__] keeps the file
    object and decodes the section at once by running [parse]. *)
Definition construct {A} (parse : M A) : M A := parse.

(** ** PSDHeader *)

Module PSDHeader.

Record colorMode_t : Type := ColorMode { code : Z; label : string }.

Record t : Type := Make {
  signature : string;
  version : Z;
  channelsNum : Z;
  height : Z;
  width : Z;
  depth : Z;
  colorMode : colorMode_t
}.

Definition colorModeMap : gmap Z string :=
  list_to_map
    [(0, "Bitmap"); (1, "Grayscale"); (2, "Indexed Color");
     (3, "RGB Color"); (4, "CMYK Color"); (7, "Multichannel");
     (8, "Duotone"); (9, "Lab Color")].

Definition parse : M t :=
  signature ← readString 4;
  check (validate "Signature" (PyStr signature) None (Some (PyStr SIGNATURE)) None);;
  version ← readShortInt;
  check (validate "Version" (PyInt version) None (Some (PyInt VERSION)) None);;
  skip 6;;
  channelsNum ← readShortInt;
  check (validate "Channels number" (PyInt channelsNum) (Some CHANNELS_RANGE) None None);;
  height ← readInt;
  check (validate "Height" (PyInt height) (Some SIZE_RANGE) None None);;
  width ← readInt;
  check (validate "Width" (PyInt width) (Some SIZE_RANGE) None None);;
  depth ← readShortInt;
  check (validate "Depth" (PyInt depth) None None (Some DEPTH_LIST));;
  colorMode ← readShortInt;
  label ← getitem PyInt colorModeMap colorMode;
  mret (Make signature version channelsNum height width depth
             (ColorMode colorMode label)).

(** [PSDHeader(fileObj)]: the file must be at its beginning. *)
Definition init : M t := fun f =>
  if bool_decide (tell f ≠ 0) then
    Raise (TypeError
      "Argument should be file pointer and it should be at the beginning of file")
  else construct parse f.

End PSDHeader.

(** ** PSDColorMode *)

Module PSDColorMode.

Record t : Type := Make { length : Z; code : Z }.

Definition parse : M t :=
  length ← updateLength;
  skip length;;
  mret (Make length length).

Definition init : M t := construct parse.

End PSDColorMode.

(** ** PSDImageResources *)

Module PSDImageResources.

Record t : Type := Make { length : Z }.

Definition parse : M t :=
  length ← updateLength;
  skip length;;
  mret (Make length).

Definition init : M t := construct parse.

End PSDImageResources.

(** ** PSDLayer *)

(** A value of the [channels] dict: a bare length, or a list of them. *)
Inductive chan_val : Type :=
| Length (n : Z)
| Lengths (l : list Z).

Module PSDLayer.

Record t : Type := Make {
  rectangle : rectangle_t;
  chanelsCount : Z;
  channels : gmap Z chan_val;
  blend : string * string;
  opacity : Z;
  clipping : Z * string;
  transpProtected : bool;
  visible : bool
}.

(** The body of the channel loop, on [self.channels]. *)
Definition record_channel (channels : gmap Z chan_val)
    (channelId channelLength : Z) : gmap Z chan_val :=
  match channels !! channelId with
  | Some (Lengths l) => <[channelId := Lengths (l ++ [channelLength])]> channels
  | Some (Length n) => <[channelId := Lengths [n]]> channels
  | None => <[channelId := Length channelLength]> channels
  end.

(** [for i in range(self.chanelsCount)]. *)
Fixpoint read_channels (n : nat) (channels : gmap Z chan_val)
  : M (gmap Z chan_val) :=
  match n with
  | O => mret channels
  | S n' =>
      channelId ← readShortInt;
      channelLength ← readInt;
      read_channels n' (record_channel channels channelId channelLength)
  end.

Definition blendMap : gmap string string :=
  list_to_map
    [("norm", "normal"); ("dark", "darken"); ("lite", "lighten");
     ("hue", "hue"); ("sat", "saturation"); ("colr", "color");
     ("lum", "luminosity"); ("mul", "multiply"); ("scrn", "screen");
     ("diss", "dissolve"); ("over", "overlay"); ("hLit", "hard light");
     ("sLit", "soft light"); ("diff", "difference")]%string.

Definition clippingMap : gmap Z string :=
  list_to_map [(0, "base"); (1, "non-base")]%string.

Definition parse : M t :=
  rectangle ← getRectangle;
  chanelsCount ← readShortInt;
  channels ← read_channels (Z.to_nat chanelsCount) ∅;
  bimSignature ← readString 4;
  (if bool_decide (bimSignature = SIGNATIRE_8BIM) then mret tt
   else raise AssertionError);;
  blendCode ← readString 4;
  blendName ← getitem PyStr blendMap blendCode;
  opacity ← readTinyInt;
  clippingCode ← readTinyInt;
  clippingName ← getitem PyInt clippingMap clippingCode;
  flagsBits ← readBits 1;
  transpProtected ← index flagsBits 0;
  visible ← index flagsBits 1;
  mret (Make rectangle chanelsCount channels (blendCode, blendName) opacity
             (clippingCode, clippingName) transpProtected visible).

Definition init : M t := construct parse.

End PSDLayer.

(** ** PSDLayerMask *)

Module PSDLayerMask.

Record t : Type := Make {
  length : Z;
  layerInfoLength : Z;
  layersCount : Z;
  layers : list PSDLayer.t;
  masklength : Z
}.

(** [for i in range(self.layersCount)]: construct a layer on the
    shared file object and append it. *)
Fixpoint read_layers (n : nat) (layers : list PSDLayer.t)
  : M (list PSDLayer.t) :=
  match n with
  | O => mret layers
  | S n' =>
      layer ← PSDLayer.init;
      read_layers n' (layers ++ [layer])
  end.

Definition parse : M t :=
  length ← updateLength;
  layerInfoLength ← readInt;
  layersCount ← readShortInt;
  let layersCount := if layersCount <? 0 then Z.abs layersCount else layersCount in
  layers ← read_layers (Z.to_nat layersCount) [];
  masklength ← readInt;
  skip masklength;;
  mret (Make length layerInfoLength layersCount layers masklength).

Definition init : M t := construct parse.

End PSDLayerMask.

(** ** PSDImageData *)

(** The file object itself, for [self.f.tell()] and [self.getsize()]. *)
Definition gets {A} (g : cursor → A) : M A := fun f => Ok (g f) f.

Module ImageDataCompression.

Record t : Type := Make { code : Z; name : string }.

Definition codeMap : gmap Z string :=
  list_to_map [(0, "Raw data"); (1, "RLE compressed")]%string.

(** Modelled from the spec: [CodeMapObject.__init__] (module
    [pypsd.sectionbase]) keeps the code and the name its map gives it;
    a code outside the map is a failure. *)
Definition init (code : Z) : M t :=
  name ← getitem PyInt codeMap code;
  mret (Make code name).

End ImageDataCompression.

Module PSDImageData.

Record t : Type := Make {
  compression : ImageDataCompression.t;
  bytesleft : Z
}.

Definition parse : M t :=
  code ← readShortInt;
  compression ← ImageDataCompression.init code;
  size ← gets getsize;
  position ← gets tell;
  mret (Make compression (size - position)).

Definition init : M t := construct parse.

End PSDImageData.

(** ** The byte layout of the fields *)

(** The byte whose value is [x mod 256]. *)
Definition byte_of_Z (x : Z) : byte :=
  default "000"%byte (Byte.of_N (Z.to_N (x mod 256))).

(** [n] bytes, big-endian, holding [x mod 256 ^ n]: a negative [x] is
    stored in two's complement. *)
Fixpoint be_bytes (n : nat) (x : Z) : list byte :=
  match n with
  | O => []
  | S n' => be_bytes n' (x / 256) ++ [byte_of_Z x]
  end.

Definition be16 : Z → list byte := be_bytes 2.
Definition be32 : Z → list byte := be_bytes 4.

(** The 26 bytes of a file header (table 10-4). *)
Definition header_bytes (signature : string) (version : Z) (reserved : list byte)
    (channels rows columns depth mode : Z) : list byte :=
  list_byte_of_string signature ++ be16 version ++ reserved ++ be16 channels
  ++ be32 rows ++ be32 columns ++ be16 depth ++ be16 mode.

(** The six bytes of a channel length record (table 10-12). *)
Definition channel_bytes (c : Z * Z) : list byte := be16 c.1 ++ be32 c.2.

(** A layer record as [PSDLayer.parse] reads it: rectangle, channel
    table, blend mode signature and key, opacity, clipping, flags. *)
Definition layer_bytes (r : rectangle_t) (count : Z) (chans : list (Z * Z))
    (bim key : string) (opacity clipping : Z) (flags : byte) : list byte :=
  be32 (r_top r) ++ be32 (r_left r) ++ be32 (r_bottom r) ++ be32 (r_right r)
  ++ be16 count ++ concat (map channel_bytes chans)
  ++ list_byte_of_string bim ++ list_byte_of_string key
  ++ [byte_of_Z opacity; byte_of_Z clipping; flags].

(** ** The outcomes the specification names *)

(** A format mismatch on the field [label]: the exception of the exact
    match branch of [validate]. *)
Definition FormatMismatch (label : string) (e : exn) : Prop :=
  ∃ expected observed : pyval,
    e = BaseException
          (label +:+ " should be " +:+ py_str expected +:+ " but was "
           +:+ py_str observed).

(** A range violation on the field [label]: the exception of the range
    branch or of the list branch of [validate]. *)
Definition RangeViolation (label : string) (e : exn) : Prop :=
  (∃ (low high : Z) (observed : pyval),
      e = BaseException
            (label +:+ " must be between " +:+ str_of_Z low +:+ " and "
             +:+ str_of_Z high +:+ ", but was " +:+ py_str observed))
  ∨ (∃ (allowed : list Z) (observed : pyval),
      e = BaseException
            (label +:+ " must be one of " +:+ str_of_list allowed
             +:+ ", but was " +:+ py_str observed)).


(** What [PSDHeader.parse] makes of the decoded fields, once the 26
    bytes are read: the checks in source order, then the colour mode
    lookup. *)
Definition header_outcome (signature : string) (version channels rows columns
    depth mode : Z) (f' : cursor) : result PSDHeader.t :=
  match validate "Signature" (PyStr signature) None (Some (PyStr SIGNATURE)) None with
  | Some e => Raise e
  | None =>
  match validate "Version" (PyInt version) None (Some (PyInt VERSION)) None with
  | Some e => Raise e
  | None =>
  match validate "Channels number" (PyInt channels) (Some CHANNELS_RANGE) None None with
  | Some e => Raise e
  | None =>
  match validate "Height" (PyInt rows) (Some SIZE_RANGE) None None with
  | Some e => Raise e
  | None =>
  match validate "Width" (PyInt columns) (Some SIZE_RANGE) None None with
  | Some e => Raise e
  | None =>
  match validate "Depth" (PyInt depth) None None (Some DEPTH_LIST) with
  | Some e => Raise e
  | None =>
  match PSDHeader.colorModeMap !! mode with
  | None => Raise (KeyError (PyInt mode))
  | Some label =>
      Ok (PSDHeader.Make signature version channels rows columns depth
            (PSDHeader.ColorMode mode label)) f'
  end end end end end end end.


(** A source positioned at offset [p] on a header that carries the
    expected signature and version, followed by [tail]. *)
Definition header_source (reserved : list byte)
    (channels rows columns depth mode : Z) (tail : list byte) (p : Z) : cursor :=
  Cursor p (header_bytes SIGNATURE VERSION reserved channels rows columns depth mode
            ++ tail).

(** The channel dict a channel table leaves behind: the loop body run
    over the decoded entries in file order. *)
Definition channel_table (chans : list (Z * Z)) : gmap Z chan_val :=
  fold_left
    (λ channels c,
       PSDLayer.record_channel channels (to_signed 16 (c.1 mod 2 ^ 16))
         (c.2 mod 2 ^ 32))
    chans ∅.

(** What [PSDLayer.parse] makes of the decoded fields, once the record
    is read: the signature assertion, the two table lookups, and the
    two flags taken at indexes 0 and 1 of the bit list. *)
Definition layer_outcome (rectangle : rectangle_t) (count : Z)
    (channels : gmap Z chan_val) (bim key : string) (opacity clipping : Z)
    (flags : byte) (f' : cursor) : result PSDLayer.t :=
  if bool_decide (bim = SIGNATIRE_8BIM) then
    match PSDLayer.blendMap !! key with
    | None => Raise (KeyError (PyStr key))
    | Some name =>
        match PSDLayer.clippingMap !! clipping with
        | None => Raise (KeyError (PyInt clipping))
        | Some cname =>
            Ok (PSDLayer.Make rectangle count channels (key, name) opacity
                  (clipping, cname)
                  (Z.testbit (Z.of_N (Byte.to_N flags)) 7)
                  (Z.testbit (Z.of_N (Byte.to_N flags)) 6)) f'
        end
    end
  else Raise AssertionError.


(** The cursor [n] bytes further on. *)
Definition advance (n : nat) (f : cursor) : cursor :=
  Cursor (tell f + Z.of_nat n) (drop n (rest f)).

(** The fields of a layer record, as a file stores them. *)
Record layer_fields : Type := LayerFields {
  lf_rectangle : rectangle_t;
  lf_channels : list (Z * Z);
  lf_key : string;
  lf_opacity : Z;
  lf_clipping : Z;
  lf_flags : byte
}.

(** The bytes of a layer record with a channel count that matches its
    channel table and the expected blend mode signature. *)
Definition layer_record (l : layer_fields) : list byte :=
  layer_bytes (lf_rectangle l) (Z.of_nat (length (lf_channels l))) (lf_channels l)
    SIGNATIRE_8BIM (lf_key l) (lf_opacity l) (lf_clipping l) (lf_flags l).

(** Fields that fit their widths and the two code tables. *)
Definition layer_fields_ok (l : layer_fields) : Prop :=
  - 2 ^ 31 <= r_top (lf_rectangle l) < 2 ^ 31
  ∧ - 2 ^ 31 <= r_left (lf_rectangle l) < 2 ^ 31
  ∧ - 2 ^ 31 <= r_bottom (lf_rectangle l) < 2 ^ 31
  ∧ - 2 ^ 31 <= r_right (lf_rectangle l) < 2 ^ 31
  ∧ Z.of_nat (length (lf_channels l)) < 2 ^ 15
  ∧ String.length (lf_key l) = 4%nat
  ∧ is_Some (PSDLayer.blendMap !! lf_key l)
  ∧ 0 <= lf_opacity l < 256
  ∧ (lf_clipping l = 0 ∨ lf_clipping l = 1).

(** The layer object such a record decodes to. *)
Definition layer_of_fields (l : layer_fields) : PSDLayer.t :=
  PSDLayer.Make (lf_rectangle l) (Z.of_nat (length (lf_channels l)))
    (channel_table (lf_channels l))
    (lf_key l, default ""%string (PSDLayer.blendMap !! lf_key l))
    (lf_opacity l)
    (lf_clipping l, default ""%string (PSDLayer.clippingMap !! lf_clipping l))
    (Z.testbit (Z.of_N (Byte.to_N (lf_flags l))) 7)
    (Z.testbit (Z.of_N (Byte.to_N (lf_flags l))) 6).

(** The bytes a layer object was decoded from: the fixed 29 and six per
    channel entry read. *)
Definition layer_size (layer : PSDLayer.t) : Z :=
  29 + 6 * Z.max 0 (PSDLayer.chanelsCount layer).

(** The lengths a channel table declares for [id], in file order. *)
Definition lengths_of (id : Z) (chans : list (Z * Z)) : list Z :=
  (filter (λ c, c.1 = id) chans).*2.

(** What the channel loop keeps of the lengths declared for one
    identifier: a bare length for one entry; for more, the list of the
    first length and of those from the third entry on. *)
Definition kept_lengths (ls : list Z) : option chan_val :=
  match ls with
  | [] => None
  | [a] => Some (Length a)
  | a :: _ :: more => Some (Lengths (a :: more))
  end.

(** One more entry for an identifier, on the value it has so far. *)
Definition next_value (o : option chan_val) (len : Z) : option chan_val :=
  match o with
  | None => Some (Length len)
  | Some (Length n) => Some (Lengths [n])
  | Some (Lengths l) => Some (Lengths (l ++ [len]))
  end.

(** Channel entries that fit their fields: a signed 16-bit identifier
    and an unsigned 32-bit length. *)
Definition channel_entry_ok (c : Z * Z) : Prop :=
  - 2 ^ 15 <= c.1 < 2 ^ 15 ∧ 0 <= c.2 < 2 ^ 32.

(** [f'] is [f] after exactly [n] bytes were read. *)
Definition consumed (n : nat) (f f' : cursor) : Prop :=
  (n ≤ length (rest f))%nat ∧ f' = advance n f.

(** The bytes a list of layer objects was decoded from. *)
Definition layers_size (layers : list PSDLayer.t) : Z :=
  foldr (λ layer total, layer_size layer + total) 0 layers.

(** The bytes of a layer and mask section (table 10-7): total length,
    layer info length, layer count, the layer records and the mask
    block with its length. *)
Definition layer_mask_bytes (total info count : Z) (records : list layer_fields)
    (mask : list byte) : list byte :=
  be32 total ++ be32 info ++ be16 count ++ concat (map layer_record records)
  ++ be32 (Z.of_nat (length mask)) ++ mask.

(** The bytes of a length-delimited section: the 32-bit length, then
    the payload. *)
Definition section_bytes (payload : list byte) : list byte :=
  be32 (Z.of_nat (length payload)) ++ payload.

(** The bytes of a whole file, the five sections in file order: header,
    colour mode data, image resources, layer and mask information,
    image data. *)
Definition document_bytes (reserved : list byte)
    (channels rows columns depth mode : Z) (color resources : list byte)
    (total info count : Z) (records : list layer_fields) (mask : list byte)
    (compression : Z) (pixels : list byte) : list byte :=
  header_bytes SIGNATURE VERSION reserved channels rows columns depth mode
  ++ section_bytes color ++ section_bytes resources
  ++ layer_mask_bytes total info count records mask
  ++ be16 compression ++ pixels.

(** * Properties *)

(** ** Stepping through the monad *)

Lemma bind_Ok {A B} (m : M A) (k : A → M B) f a f' :
  m f = Ok a f' → (m ≫= k) f = k a f'.
Proof. intros E. unfold mbind, M_bind. now rewrite E. Qed.

Lemma bind_Raise {A B} (m : M A) (k : A → M B) f e :
  m f = Raise e → (m ≫= k) f = Raise e.
Proof. intros E. unfold mbind, M_bind. now rewrite E. Qed.

Lemma check_None f : check None f = Ok tt f.
Proof. reflexivity. Qed.

Lemma check_Some e f : check (Some e) f = Raise e.
Proof. reflexivity. Qed.

(** ** Reading back the byte layout *)

Lemma byte_of_Z_value x : Z.of_N (Byte.to_N (byte_of_Z x)) = x mod 256.
Proof.
  unfold byte_of_Z.
  assert (Hb : 0 <= x mod 256 < 256) by (apply Z.mod_pos_bound; lia).
  destruct (Byte.of_N (Z.to_N (x mod 256))) as [b|] eqn:E; simpl.
  - apply Byte.to_of_N in E. rewrite E. apply Z2N.id. lia.
  - apply Byte.of_N_None_iff in E. apply N2Z.inj_lt in E.
    rewrite Z2N.id in E by lia. change (Z.of_N 255) with 255 in E. lia.
Qed.

Lemma be_uint_snoc bs b :
  be_uint (bs ++ [b]) = be_uint bs * 256 + Z.of_N (Byte.to_N b).
Proof. unfold be_uint. now rewrite fold_left_app. Qed.

Lemma be_uint_be_bytes n x : be_uint (be_bytes n x) = x mod 256 ^ Z.of_nat n.
Proof.
  revert x. induction n as [|n IH]; intros x.
  - simpl. now rewrite Z.mod_1_r.
  - cbn [be_bytes]. rewrite be_uint_snoc, IH, byte_of_Z_value.
    rewrite Nat2Z.inj_succ, Z.pow_succ_r by lia.
    assert (0 < 256 ^ Z.of_nat n) by (apply Z.pow_pos_nonneg; lia).
    rewrite Z.rem_mul_r by lia. lia.
Qed.

Lemma length_be_bytes n x : length (be_bytes n x) = n.
Proof.
  revert x. induction n as [|n IH]; intros x; [done|].
  cbn [be_bytes]. rewrite length_app, IH. simpl. lia.
Qed.

Lemma read_app n bs r p :
  length bs = n →
  read n (Cursor p (bs ++ r)) = Ok bs (Cursor (p + Z.of_nat n) r).
Proof.
  intros <-. unfold read. cbn [rest tell].
  rewrite length_app.
  destruct (Nat.leb_spec (length bs) (length bs + length r)) as [_|]; [|lia].
  now rewrite take_app_length, drop_app_length.
Qed.

Lemma readInt_be32 x r p :
  readInt (Cursor p (be32 x ++ r)) = Ok (x mod 2 ^ 32) (Cursor (p + 4) r).
Proof.
  unfold readInt. erewrite bind_Ok by (apply read_app, length_be_bytes).
  unfold be32. now rewrite be_uint_be_bytes.
Qed.

Lemma readShortInt_be16 x r p :
  readShortInt (Cursor p (be16 x ++ r))
  = Ok (to_signed 16 (x mod 2 ^ 16)) (Cursor (p + 2) r).
Proof.
  unfold readShortInt. erewrite bind_Ok by (apply read_app, length_be_bytes).
  unfold be16. now rewrite be_uint_be_bytes.
Qed.

(** A value in the signed 16-bit range is read back as it is. *)
Lemma to_signed_16 x : - 2 ^ 15 <= x < 2 ^ 15 → to_signed 16 (x mod 2 ^ 16) = x.
Proof.
  intros H. unfold to_signed.
  change (2 ^ (16 - 1)) with 32768. change (2 ^ 16) with 65536.
  change (2 ^ 15) with 32768 in H.
  destruct (Z.ltb_spec (x mod 65536) 32768) as [L|L].
  - destruct (Z.neg_nonneg_cases x) as [N|N].
    + rewrite <- (Z.mod_add x 1 65536), Z.mod_small in L by lia. lia.
    + rewrite Z.mod_small by lia. reflexivity.
  - destruct (Z.neg_nonneg_cases x) as [N|N].
    + rewrite <- (Z.mod_add x 1 65536), Z.mod_small by lia. lia.
    + rewrite Z.mod_small in L by lia. lia.
Qed.

Lemma readShortInt_be16_signed x r p :
  - 2 ^ 15 <= x < 2 ^ 15 →
  readShortInt (Cursor p (be16 x ++ r)) = Ok x (Cursor (p + 2) r).
Proof. intros H. now rewrite readShortInt_be16, to_signed_16. Qed.

Lemma readInt_be32_unsigned x r p :
  0 <= x < 2 ^ 32 →
  readInt (Cursor p (be32 x ++ r)) = Ok x (Cursor (p + 4) r).
Proof. intros H. now rewrite readInt_be32, Z.mod_small. Qed.

Lemma length_list_byte_of_string s :
  length (list_byte_of_string s) = String.length s.
Proof.
  unfold list_byte_of_string. rewrite length_map.
  induction s as [|a s IH]; simpl; congruence.
Qed.

Lemma readString_text s r p :
  readString (String.length s) (Cursor p (list_byte_of_string s ++ r))
  = Ok s (Cursor (p + Z.of_nat (String.length s)) r).
Proof.
  unfold readString.
  erewrite bind_Ok by (apply read_app, length_list_byte_of_string).
  unfold mret, M_ret. now rewrite string_of_list_byte_of_string.
Qed.

Lemma skip_app bs r p n :
  Z.of_nat (length bs) = n →
  skip n (Cursor p (bs ++ r)) = Ok tt (Cursor (p + n) r).
Proof.
  intros <-. unfold skip.
  erewrite bind_Ok by (apply read_app; now rewrite Nat2Z.id).
  now rewrite Nat2Z.id.
Qed.

Lemma readString_n n s r p :
  String.length s = n →
  readString n (Cursor p (list_byte_of_string s ++ r))
  = Ok s (Cursor (p + Z.of_nat n) r).
Proof. intros <-. apply readString_text. Qed.

Lemma bind_check {B} (r : option exn) (k : unit → M B) f :
  (check r ≫= k) f = match r with Some e => Raise e | None => k tt f end.
Proof. now destruct r. Qed.

Lemma bind_getitem `{Countable K} {V B} (key : K → pyval) (d : gmap K V) k
    (c : V → M B) f :
  (getitem key d k ≫= c) f
  = match d !! k with Some v => c v f | None => Raise (KeyError (key k)) end.
Proof. unfold getitem, mbind, M_bind. now destruct (d !! k). Qed.

(** ** The header on its byte layout *)

Lemma header_parse_bytes signature version reserved channels rows columns
    depth mode tail p :
  String.length signature = 4%nat →
  length reserved = 6%nat →
  0 <= rows < 2 ^ 32 → 0 <= columns < 2 ^ 32 →
  PSDHeader.parse
    (Cursor p (header_bytes signature version reserved channels rows columns
                 depth mode ++ tail))
  = header_outcome signature (to_signed 16 (version mod 2 ^ 16))
      (to_signed 16 (channels mod 2 ^ 16)) rows columns
      (to_signed 16 (depth mod 2 ^ 16)) (to_signed 16 (mode mod 2 ^ 16))
      (Cursor (p + 26) tail).
Proof.
  intros Hs Hr Hh Hw.
  unfold header_bytes, PSDHeader.parse, header_outcome.
  rewrite <- !app_assoc.
  erewrite bind_Ok by (now apply readString_n).
  rewrite bind_check. destruct (validate "Signature" _ _ _ _); [done|].
  erewrite bind_Ok by apply readShortInt_be16.
  rewrite bind_check. destruct (validate "Version" _ _ _ _); [done|].
  erewrite bind_Ok by (apply skip_app; now rewrite Hr).
  erewrite bind_Ok by apply readShortInt_be16.
  rewrite bind_check. destruct (validate "Channels number" _ _ _ _); [done|].
  erewrite bind_Ok by (now apply readInt_be32_unsigned).
  rewrite bind_check. destruct (validate "Height" _ _ _ _); [done|].
  erewrite bind_Ok by (now apply readInt_be32_unsigned).
  rewrite bind_check. destruct (validate "Width" _ _ _ _); [done|].
  erewrite bind_Ok by apply readShortInt_be16.
  rewrite bind_check. destruct (validate "Depth" _ _ _ _); [done|].
  erewrite bind_Ok by apply readShortInt_be16.
  rewrite bind_getitem. destruct (PSDHeader.colorModeMap !! _); [|done].
  unfold mret, M_ret. do 2 f_equal. lia.
Qed.

(** ** validate, branch by branch *)

Lemma validate_mustBe label value m :
  truthy m = true →
  validate label value None (Some m) None
  = if bool_decide (value ≠ m) then
      Some (BaseException
              (label +:+ " should be " +:+ py_str m +:+ " but was " +:+ py_str value))
    else None.
Proof. intros T. unfold validate. cbn [from_option]. now rewrite T. Qed.

Lemma validate_range label value r :
  range_truthy r = true →
  validate label value (Some r) None None
  = if range_contains r value then None
    else Some (BaseException
                 (label +:+ " must be between " +:+ str_of_Z (range_first r)
                  +:+ " and " +:+ str_of_Z (range_last r)
                  +:+ ", but was " +:+ py_str value)).
Proof.
  intros T. unfold validate. cbn [from_option]. rewrite T.
  now destruct (range_contains r value).
Qed.

Lemma validate_list label value l :
  list_truthy l = true →
  validate label value None None (Some l)
  = if list_contains l value then None
    else Some (BaseException
                 (label +:+ " must be one of " +:+ str_of_list l
                  +:+ ", but was " +:+ py_str value)).
Proof.
  intros T. unfold validate. cbn [from_option]. rewrite T.
  now destruct (list_contains l value).
Qed.

Lemma range_contains_int lo hi n :
  range_contains (Range lo hi) (PyInt n) = true ↔ lo <= n < hi.
Proof. unfold range_contains. cbn [start stop]. rewrite andb_true_iff. lia. Qed.

Lemma validate_in_range label lo hi n :
  lo <= n < hi → validate label (PyInt n) (Some (Range lo hi)) None None = None.
Proof.
  intros H. rewrite validate_range by (unfold range_truthy; cbn; lia).
  apply range_contains_int in H. now rewrite H.
Qed.

Lemma validate_out_of_range label lo hi n :
  lo < hi → ¬ lo <= n < hi →
  ∃ e, validate label (PyInt n) (Some (Range lo hi)) None None = Some e
       ∧ RangeViolation label e.
Proof.
  intros L H. rewrite validate_range by (unfold range_truthy; cbn; lia).
  destruct (range_contains _ _) eqn:E; [apply range_contains_int in E; lia|].
  eexists. split; [reflexivity|]. left. now exists lo, (hi - 1), (PyInt n).
Qed.

Lemma depth_list_contains d :
  list_contains DEPTH_LIST (PyInt d) = true ↔ d = 1 ∨ d = 8 ∨ d = 16.
Proof.
  unfold list_contains, DEPTH_LIST. cbn [existsb].
  rewrite !orb_true_iff, !Z.eqb_eq. intuition discriminate.
Qed.

Lemma header_source_parse reserved channels rows columns depth mode tail p :
  length reserved = 6%nat →
  0 <= rows < 2 ^ 32 → 0 <= columns < 2 ^ 32 →
  PSDHeader.parse (header_source reserved channels rows columns depth mode tail p)
  = header_outcome SIGNATURE VERSION
      (to_signed 16 (channels mod 2 ^ 16)) rows columns
      (to_signed 16 (depth mod 2 ^ 16)) (to_signed 16 (mode mod 2 ^ 16))
      (Cursor (p + 26) tail).
Proof.
  intros Hr Hh Hw. unfold header_source.
  now rewrite header_parse_bytes.
Qed.

Lemma header_outcome_checked channels rows columns depth mode f' :
  1 <= channels <= 56 → 1 <= rows <= 30000 → 1 <= columns <= 30000 →
  depth = 1 ∨ depth = 8 ∨ depth = 16 →
  header_outcome SIGNATURE VERSION channels rows columns depth mode f'
  = match PSDHeader.colorModeMap !! mode with
    | None => Raise (KeyError (PyInt mode))
    | Some label =>
        Ok (PSDHeader.Make SIGNATURE VERSION channels rows columns depth
              (PSDHeader.ColorMode mode label)) f'
    end.
Proof.
  intros Hc Hh Hw Hd. unfold header_outcome.
  change (validate "Signature" _ _ _ _) with (@None exn).
  change (validate "Version" _ _ _ _) with (@None exn).
  unfold CHANNELS_RANGE, SIZE_RANGE.
  rewrite !validate_in_range by lia.
  rewrite validate_list by reflexivity.
  apply depth_list_contains in Hd. now rewrite Hd.
Qed.

Lemma colorModeMap_unknown mode :
  mode < 0 ∨ mode = 5 ∨ mode = 6 ∨ 9 < mode →
  PSDHeader.colorModeMap !! mode = None.
Proof.
  intros H. unfold PSDHeader.colorModeMap. cbn [list_to_map foldr fst snd].
  rewrite !lookup_insert_ne by lia. apply lookup_empty.
Qed.

(** ** The header decoder *)

(** C9: whenever the four signature bytes differ from the fixed tag,
    [PSDHeader.parse] raises the exact-match failure of [validate] for
    the field named "Signature", whatever follows in the source. *)
Theorem header_signature_mismatch (sig tail : list byte) (p : Z) :
  length sig = 4%nat →
  sig ≠ list_byte_of_string SIGNATURE →
  ∃ e, PSDHeader.parse (Cursor p (sig ++ tail)) = Raise e
       ∧ FormatMismatch "Signature" e
       ∧ e = BaseException
               ("Signature should be 8BPS but was " +:+ string_of_list_byte sig).
Proof.
  intros Hl Hne. eexists. split; [|split; [|reflexivity]].
  - unfold PSDHeader.parse, readString.
    erewrite bind_Ok by (erewrite bind_Ok by (now apply read_app); reflexivity).
    rewrite bind_check, validate_mustBe by reflexivity.
    rewrite bool_decide_eq_true_2; [reflexivity|].
    intros [= E]. apply Hne. rewrite <- E.
    now rewrite list_byte_of_string_of_list_byte.
  - now exists (PyStr SIGNATURE), (PyStr (string_of_list_byte sig)).
Qed.

Lemma header_signature_mismatch_witness :
  ∃ e, PSDHeader.parse
         (Cursor 0 (list_byte_of_string "8BPX" ++ be16 1)) = Raise e
       ∧ FormatMismatch "Signature" e
       ∧ e = BaseException "Signature should be 8BPS but was 8BPX".
Proof.
  apply (header_signature_mismatch (list_byte_of_string "8BPX") (be16 1) 0).
  - reflexivity.
  - vm_compute. discriminate.
Defined.

(** C4: on a header with the expected signature and version, decoding
    succeeds when the channel count lies in 1..56, height and width in
    1..30000 and the depth is 1, 8 or 16 (the bounds included), and
    raises a range violation naming the first field that is outside its
    range: the channel count, the height, the width (0 and 57, 0 and
    30001 included) or a depth other than 1, 8 and 16. *)
Theorem header_ranges (reserved tail : list byte)
    (channels rows columns depth mode : Z) (label : string) (p : Z) :
  length reserved = 6%nat →
  - 2 ^ 15 <= channels < 2 ^ 15 →
  0 <= rows < 2 ^ 32 → 0 <= columns < 2 ^ 32 →
  - 2 ^ 15 <= depth < 2 ^ 15 →
  - 2 ^ 15 <= mode < 2 ^ 15 →
  PSDHeader.colorModeMap !! mode = Some label →
  (1 <= channels <= 56 → 1 <= rows <= 30000 → 1 <= columns <= 30000 →
   depth = 1 ∨ depth = 8 ∨ depth = 16 →
   PSDHeader.parse (header_source reserved channels rows columns depth mode tail p)
   = Ok (PSDHeader.Make SIGNATURE VERSION channels rows columns depth
           (PSDHeader.ColorMode mode label))
        (Cursor (p + 26) tail))
  ∧ (¬ 1 <= channels <= 56 →
     ∃ e, PSDHeader.parse
            (header_source reserved channels rows columns depth mode tail p)
          = Raise e ∧ RangeViolation "Channels number" e)
  ∧ (1 <= channels <= 56 → ¬ 1 <= rows <= 30000 →
     ∃ e, PSDHeader.parse
            (header_source reserved channels rows columns depth mode tail p)
          = Raise e ∧ RangeViolation "Height" e)
  ∧ (1 <= channels <= 56 → 1 <= rows <= 30000 → ¬ 1 <= columns <= 30000 →
     ∃ e, PSDHeader.parse
            (header_source reserved channels rows columns depth mode tail p)
          = Raise e ∧ RangeViolation "Width" e)
  ∧ (1 <= channels <= 56 → 1 <= rows <= 30000 → 1 <= columns <= 30000 →
     ¬ (depth = 1 ∨ depth = 8 ∨ depth = 16) →
     ∃ e, PSDHeader.parse
            (header_source reserved channels rows columns depth mode tail p)
          = Raise e ∧ RangeViolation "Depth" e).
Proof.
  intros Hr Hc Hh Hw Hd Hm Hl.
  rewrite header_source_parse, !to_signed_16 by assumption.
  repeat split.
  - intros. rewrite header_outcome_checked by assumption. now rewrite Hl.
  - intros Out. unfold header_outcome.
    change (validate "Signature" _ _ _ _) with (@None exn).
    change (validate "Version" _ _ _ _) with (@None exn).
    unfold CHANNELS_RANGE.
    destruct (validate_out_of_range "Channels number" 1 57 channels)
      as (e & -> & V); [lia..|]. eauto.
  - intros In1 Out. unfold header_outcome.
    change (validate "Signature" _ _ _ _) with (@None exn).
    change (validate "Version" _ _ _ _) with (@None exn).
    unfold CHANNELS_RANGE, SIZE_RANGE. rewrite validate_in_range by lia.
    destruct (validate_out_of_range "Height" 1 30001 rows)
      as (e & -> & V); [lia..|]. eauto.
  - intros In1 In2 Out. unfold header_outcome.
    change (validate "Signature" _ _ _ _) with (@None exn).
    change (validate "Version" _ _ _ _) with (@None exn).
    unfold CHANNELS_RANGE, SIZE_RANGE. rewrite !validate_in_range by lia.
    destruct (validate_out_of_range "Width" 1 30001 columns)
      as (e & -> & V); [lia..|]. eauto.
  - intros In1 In2 In3 Out. unfold header_outcome.
    change (validate "Signature" _ _ _ _) with (@None exn).
    change (validate "Version" _ _ _ _) with (@None exn).
    unfold CHANNELS_RANGE, SIZE_RANGE. rewrite !validate_in_range by lia.
    rewrite validate_list by reflexivity.
    destruct (list_contains DEPTH_LIST (PyInt depth)) eqn:E.
    + apply depth_list_contains in E. contradiction.
    + eexists. split; [reflexivity|]. right.
      now exists DEPTH_LIST, (PyInt depth).
Qed.

Lemma header_ranges_witness :
  PSDHeader.parse
    (header_source (replicate 6 "000"%byte) 56 30000 1 16 3 [] 0)
  = Ok (PSDHeader.Make SIGNATURE VERSION 56 30000 1 16
          (PSDHeader.ColorMode 3 "RGB Color"))
       (Cursor 26 [])
  ∧ ∃ e, PSDHeader.parse
           (header_source (replicate 6 "000"%byte) 57 30000 1 16 3 [] 0)
         = Raise e ∧ RangeViolation "Channels number" e.
Proof.
  split.
  - refine (proj1 (header_ranges (replicate 6 "000"%byte) [] 56 30000 1 16 3
                     "RGB Color" 0 _ _ _ _ _ _ _) _ _ _ _);
      first [reflexivity | lia | (right; right; reflexivity)].
  - refine (proj1 (proj2 (header_ranges (replicate 6 "000"%byte) [] 57 30000 1
                            16 3 "RGB Color" 0 _ _ _ _ _ _ _)) _);
      first [reflexivity | lia].
Defined.

(** C5: on a header whose other fields are valid, the colour mode codes
    0, 1, 2, 3, 4, 7, 8 and 9 decode to Bitmap, Grayscale, Indexed
    Color, RGB Color, CMYK Color, Multichannel, Duotone and Lab Color,
    and the codes 5, 6 and every 16-bit value above 9 make the decoding
    fail, on the dictionary lookup. *)
Theorem header_color_mode (reserved tail : list byte)
    (channels rows columns depth mode : Z) (p : Z) :
  length reserved = 6%nat →
  1 <= channels <= 56 → 1 <= rows <= 30000 → 1 <= columns <= 30000 →
  depth = 1 ∨ depth = 8 ∨ depth = 16 →
  0 <= mode < 2 ^ 16 →
  (∀ label,
     (mode, label) ∈ [(0, "Bitmap"); (1, "Grayscale"); (2, "Indexed Color");
                      (3, "RGB Color"); (4, "CMYK Color"); (7, "Multichannel");
                      (8, "Duotone"); (9, "Lab Color")] →
     PSDHeader.parse (header_source reserved channels rows columns depth mode tail p)
     = Ok (PSDHeader.Make SIGNATURE VERSION channels rows columns depth
             (PSDHeader.ColorMode mode label))
          (Cursor (p + 26) tail))
  ∧ (mode = 5 ∨ mode = 6 ∨ 9 < mode →
     PSDHeader.parse (header_source reserved channels rows columns depth mode tail p)
     = Raise (KeyError (PyInt (to_signed 16 mode)))).
Proof.
  intros Hr Hc Hh Hw Hd Hm.
  rewrite header_source_parse by lia.
  rewrite (to_signed_16 channels) by lia.
  rewrite (to_signed_16 depth) by lia.
  rewrite (Z.mod_small mode) by lia.
  rewrite header_outcome_checked by assumption.
  split.
  - intros label Hin.
    assert (Hs : mode < 2 ^ 15 ∧ PSDHeader.colorModeMap !! mode = Some label).
    { rewrite !elem_of_cons, elem_of_nil in Hin.
      destruct Hin as [Hin | [Hin | [Hin | [Hin | [Hin | [Hin | [Hin | [Hin | []]]]]]]]];
        injection Hin as -> ->; split; solve [lia | reflexivity]. }
    destruct Hs as [Hlt Hl].
    unfold to_signed. change (2 ^ (16 - 1)) with (2 ^ 15).
    destruct (Z.ltb_spec mode (2 ^ 15)) as [_|]; [|lia].
    now rewrite Hl.
  - intros Hbad. rewrite colorModeMap_unknown; [reflexivity|].
    unfold to_signed. change (2 ^ (16 - 1)) with 32768. change (2 ^ 16) with 65536.
    change (2 ^ 16) with 65536 in Hm.
    destruct (Z.ltb_spec mode 32768); lia.
Qed.

Lemma header_color_mode_witness :
  PSDHeader.parse (header_source (replicate 6 "000"%byte) 3 10 10 8 6 [] 0)
  = Raise (KeyError (PyInt 6)).
Proof.
  refine (proj2 (header_color_mode (replicate 6 "000"%byte) [] 3 10 10 8 6 0
                   _ _ _ _ _ _) _);
    first [reflexivity | lia | (right; left; reflexivity)].
Defined.

(** ** validate *)

(** C10: with only [mustBe] given and falsy (0, the empty string),
    [validate] takes no branch and raises nothing, whatever the label
    and the observed value, also when the value differs from
    [mustBe]. *)
Theorem validate_falsy_mustBe (label : string) (value m : pyval) :
  truthy m = false →
  validate label value None (Some m) None = None.
Proof. intros F. unfold validate. cbn [from_option]. now rewrite F. Qed.

Lemma validate_falsy_mustBe_witness :
  truthy (PyInt 0) = false
  ∧ PyInt 7 ≠ PyInt 0
  ∧ validate "Version" (PyInt 7) None (Some (PyInt 0)) None = None.
Proof.
  split; [reflexivity|]. split; [discriminate|].
  apply (validate_falsy_mustBe "Version" (PyInt 7) (PyInt 0)). reflexivity.
Defined.

(** ** Length-delimited sections *)

Lemma be_uint_nonneg bs : 0 <= be_uint bs.
Proof.
  assert (G : ∀ acc, 0 <= acc →
            0 <= fold_left (λ acc b, acc * 256 + Z.of_N (Byte.to_N b)) bs acc).
  { induction bs as [|b bs IH]; intros acc Ha; [done|].
    cbn [fold_left]. apply IH. lia. }
  now apply G.
Qed.

Lemma read_Ok n f bs f' :
  read n f = Ok bs f' → tell f' = tell f + Z.of_nat n.
Proof.
  unfold read. destruct (n <=? length (rest f))%nat; [|done].
  now intros [= _ <-].
Qed.

Lemma readInt_Ok f n f' :
  readInt f = Ok n f' → tell f' = tell f + 4 ∧ 0 <= n.
Proof.
  unfold readInt, mbind, M_bind. destruct (read 4 f) as [bs f1|] eqn:E; [|done].
  intros [= <- <-]. apply read_Ok in E. split; [lia | apply be_uint_nonneg].
Qed.

Lemma skip_Ok n f u f' :
  0 <= n → skip n f = Ok u f' → tell f' = tell f + n.
Proof.
  intros Hn. unfold skip, mbind, M_bind.
  destruct (read (Z.to_nat n) f) as [bs f1|] eqn:E; [|done].
  intros [= _ <-]. apply read_Ok in E. lia.
Qed.

(** Whenever the colour mode section decodes, the cursor has advanced
    by the length field and the length it declares. *)
Lemma color_mode_advance f obj f' :
  PSDColorMode.parse f = Ok obj f' →
  tell f' = tell f + 4 + PSDColorMode.length obj.
Proof.
  unfold PSDColorMode.parse, updateLength, mbind at 1, M_bind at 1.
  destruct (readInt f) as [n f1|] eqn:E1; [|done].
  unfold mbind, M_bind. destruct (skip n f1) as [u f2|] eqn:E2; [|done].
  intros [= <- <-]. cbn [PSDColorMode.length].
  apply readInt_Ok in E1 as [E1 Hn]. apply skip_Ok in E2; lia.
Qed.

Lemma image_resources_advance f obj f' :
  PSDImageResources.parse f = Ok obj f' →
  tell f' = tell f + 4 + PSDImageResources.length obj.
Proof.
  unfold PSDImageResources.parse, updateLength, mbind at 1, M_bind at 1.
  destruct (readInt f) as [n f1|] eqn:E1; [|done].
  unfold mbind, M_bind. destruct (skip n f1) as [u f2|] eqn:E2; [|done].
  intros [= <- <-]. cbn [PSDImageResources.length].
  apply readInt_Ok in E1 as [E1 Hn]. apply skip_Ok in E2; lia.
Qed.

(** C8: a colour mode section, or an image resources section, that
    declares a length of [declared] bytes (0 included) and holds them
    decodes with that length, and leaves the cursor at its offset
    before the call plus 4 plus the declared length. *)
Theorem section_length_accounting (declared : Z) (payload tail : list byte) (p : Z) :
  0 <= declared < 2 ^ 32 →
  Z.of_nat (length payload) = declared →
  (∃ obj f', PSDColorMode.parse (Cursor p (be32 declared ++ payload ++ tail))
             = Ok obj f'
             ∧ PSDColorMode.length obj = declared
             ∧ tell f' = p + 4 + declared ∧ rest f' = tail)
  ∧ (∃ obj f', PSDImageResources.parse (Cursor p (be32 declared ++ payload ++ tail))
               = Ok obj f'
               ∧ PSDImageResources.length obj = declared
               ∧ tell f' = p + 4 + declared ∧ rest f' = tail).
Proof.
  intros Hd Hp. split.
  - exists (PSDColorMode.Make declared declared), (Cursor (p + 4 + declared) tail).
    split; [|done].
    unfold PSDColorMode.parse, updateLength.
    erewrite bind_Ok by (now apply readInt_be32_unsigned).
    erewrite bind_Ok by (now apply skip_app). reflexivity.
  - exists (PSDImageResources.Make declared), (Cursor (p + 4 + declared) tail).
    split; [|done].
    unfold PSDImageResources.parse, updateLength.
    erewrite bind_Ok by (now apply readInt_be32_unsigned).
    erewrite bind_Ok by (now apply skip_app). reflexivity.
Qed.

Lemma section_length_accounting_witness :
  (∃ obj f', PSDColorMode.parse (Cursor 26 (be32 0 ++ [] ++ be32 3))
             = Ok obj f'
             ∧ PSDColorMode.length obj = 0
             ∧ tell f' = 26 + 4 + 0 ∧ rest f' = be32 3)
  ∧ (∃ obj f', PSDImageResources.parse (Cursor 26 (be32 0 ++ [] ++ be32 3))
               = Ok obj f'
               ∧ PSDImageResources.length obj = 0
               ∧ tell f' = 26 + 4 + 0 ∧ rest f' = be32 3).
Proof.
  apply (section_length_accounting 0 [] (be32 3) 26); [lia | reflexivity].
Defined.

(** ** Layer records on their byte layout *)

Lemma to_signed_32 x : - 2 ^ 31 <= x < 2 ^ 31 → to_signed 32 (x mod 2 ^ 32) = x.
Proof.
  intros H. unfold to_signed.
  change (2 ^ (32 - 1)) with 2147483648. change (2 ^ 32) with 4294967296.
  change (2 ^ 31) with 2147483648 in H.
  destruct (Z.ltb_spec (x mod 4294967296) 2147483648) as [L|L].
  - destruct (Z.neg_nonneg_cases x) as [N|N].
    + rewrite <- (Z.mod_add x 1 4294967296), Z.mod_small in L by lia. lia.
    + rewrite Z.mod_small by lia. reflexivity.
  - destruct (Z.neg_nonneg_cases x) as [N|N].
    + rewrite <- (Z.mod_add x 1 4294967296), Z.mod_small by lia. lia.
    + rewrite Z.mod_small in L by lia. lia.
Qed.

Lemma getRectangle_bytes t l b r tail p :
  getRectangle (Cursor p (be32 t ++ be32 l ++ be32 b ++ be32 r ++ tail))
  = Ok (Rectangle (to_signed 32 (t mod 2 ^ 32)) (to_signed 32 (l mod 2 ^ 32))
          (to_signed 32 (b mod 2 ^ 32)) (to_signed 32 (r mod 2 ^ 32)))
       (Cursor (p + 16) tail).
Proof.
  unfold getRectangle.
  do 4 (erewrite bind_Ok by (apply read_app, length_be_bytes)).
  unfold be32, mret, M_ret. rewrite !be_uint_be_bytes.
  do 2 f_equal. lia.
Qed.

Lemma read_channels_bytes chans channels tail p :
  PSDLayer.read_channels (length chans) channels
    (Cursor p (concat (map channel_bytes chans) ++ tail))
  = Ok (fold_left
          (λ channels c,
             PSDLayer.record_channel channels (to_signed 16 (c.1 mod 2 ^ 16))
               (c.2 mod 2 ^ 32))
          chans channels)
       (Cursor (p + 6 * Z.of_nat (length chans)) tail).
Proof.
  revert channels p. induction chans as [|c chans IH]; intros channels p.
  - cbn. do 2 f_equal. lia.
  - cbn [length map concat PSDLayer.read_channels fold_left].
    unfold channel_bytes at 1. rewrite <- !app_assoc.
    erewrite bind_Ok by apply readShortInt_be16.
    erewrite bind_Ok by apply readInt_be32.
    rewrite IH. do 2 f_equal. lia.
Qed.

Lemma readTinyInt_byte x tail p :
  readTinyInt (Cursor p (byte_of_Z x :: tail)) = Ok (x mod 256) (Cursor (p + 1) tail).
Proof.
  unfold readTinyInt.
  erewrite bind_Ok by (apply (read_app 1 [byte_of_Z x]); reflexivity).
  unfold mret, M_ret, be_uint. cbn [fold_left].
  now rewrite byte_of_Z_value.
Qed.

Lemma readBits_byte b tail p :
  readBits 1 (Cursor p (b :: tail)) = Ok (bits_of_byte b) (Cursor (p + 1) tail).
Proof.
  unfold readBits.
  now erewrite bind_Ok by (apply (read_app 1 [b]); reflexivity).
Qed.

Lemma layer_parse_bytes r count chans bim key opacity clipping flags tail p :
  Z.to_nat (to_signed 16 (count mod 2 ^ 16)) = length chans →
  String.length bim = 4%nat → String.length key = 4%nat →
  PSDLayer.parse
    (Cursor p (layer_bytes r count chans bim key opacity clipping flags ++ tail))
  = layer_outcome
      (Rectangle (to_signed 32 (r_top r mod 2 ^ 32))
         (to_signed 32 (r_left r mod 2 ^ 32))
         (to_signed 32 (r_bottom r mod 2 ^ 32))
         (to_signed 32 (r_right r mod 2 ^ 32)))
      (to_signed 16 (count mod 2 ^ 16)) (channel_table chans) bim key
      (opacity mod 256) (clipping mod 256) flags
      (Cursor (p + 29 + 6 * Z.of_nat (length chans)) tail).
Proof.
  intros Hn Hb Hk. unfold layer_bytes, PSDLayer.parse, layer_outcome.
  rewrite <- !app_assoc.
  erewrite bind_Ok by apply getRectangle_bytes.
  erewrite bind_Ok by apply readShortInt_be16.
  rewrite Hn. erewrite bind_Ok by apply read_channels_bytes.
  erewrite bind_Ok by (now apply readString_n).
  case_bool_decide; [|reflexivity].
  erewrite bind_Ok by reflexivity.
  erewrite bind_Ok by (now apply readString_n).
  rewrite bind_getitem. destruct (PSDLayer.blendMap !! key); [|reflexivity].
  cbn [app].
  erewrite bind_Ok by apply readTinyInt_byte.
  erewrite bind_Ok by apply readTinyInt_byte.
  rewrite bind_getitem. destruct (PSDLayer.clippingMap !! _); [|reflexivity].
  erewrite bind_Ok by apply readBits_byte.
  unfold bits_of_byte. cbn [map].
  erewrite bind_Ok by reflexivity. erewrite bind_Ok by reflexivity.
  unfold mret, M_ret. unfold channel_table. do 2 f_equal. lia.
Qed.

(** C7: a layer record whose four-byte blend mode key is none of the 14
    keys of the blend table does not decode: the lookup in the table
    raises [KeyError] on that key, no name is substituted and the key
    is not passed through.  (A record whose blend mode signature is
    wrong fails before, on the assertion.) *)
Theorem unknown_blend_key (r : rectangle_t) (chans : list (Z * Z))
    (bim key : string) (opacity clipping : Z) (flags : byte)
    (tail : list byte) (p : Z) :
  Z.of_nat (length chans) < 2 ^ 15 →
  String.length bim = 4%nat →
  String.length key = 4%nat →
  key ∉ ["norm"; "dark"; "lite"; "hue"; "sat"; "colr"; "lum"; "mul"; "scrn";
         "diss"; "over"; "hLit"; "sLit"; "diff"] →
  ∃ e, PSDLayer.parse
         (Cursor p (layer_bytes r (Z.of_nat (length chans)) chans bim key
                      opacity clipping flags ++ tail))
       = Raise e
       ∧ (bim = SIGNATIRE_8BIM → e = KeyError (PyStr key)).
Proof.
  intros Hn Hb Hk Hkey.
  rewrite layer_parse_bytes; [|rewrite to_signed_16; lia|assumption..].
  unfold layer_outcome. case_bool_decide as Hs.
  - unfold PSDLayer.blendMap.
    rewrite (not_elem_of_list_to_map_1 _ key) by exact Hkey. eauto.
  - eexists. split; [reflexivity | contradiction].
Qed.

Lemma unknown_blend_key_witness :
  ∃ e, PSDLayer.parse
         (Cursor 0 (layer_bytes (Rectangle 0 0 10 10) (Z.of_nat (length [(0, 10)]))
                      [(0, 10)] "8BIM" "hue " 255 0 Byte.x02 ++ []))
       = Raise e
       ∧ ("8BIM" = SIGNATIRE_8BIM → e = KeyError (PyStr "hue ")).
Proof.
  apply (unknown_blend_key (Rectangle 0 0 10 10) [(0, 10)] "8BIM" "hue " 255 0
           Byte.x02 [] 0); [cbn; lia | reflexivity | reflexivity |].
  rewrite !elem_of_cons, elem_of_nil. intros H.
  repeat (destruct H as [H|H]; [discriminate H|]). exact H.
Defined.

Lemma bind_Ok_inv {A B} (m : M A) (k : A → M B) f b f' :
  (m ≫= k) f = Ok b f' → ∃ a f1, m f = Ok a f1 ∧ k a f1 = Ok b f'.
Proof.
  unfold mbind, M_bind. destruct (m f) as [a f1|]; [|discriminate]. eauto.
Qed.

Lemma getitem_Ok_inv `{Countable K} {V} (key : K → pyval) (d : gmap K V) k f v f' :
  getitem key d k f = Ok v f' → d !! k = Some v ∧ f' = f.
Proof.
  unfold getitem. destruct (d !! k); [|discriminate].
  now intros [= -> ->].
Qed.

Ltac bind_inv H :=
  let a := fresh "a" in let f := fresh "f" in let E := fresh "E" in
  apply bind_Ok_inv in H as (a & f & E & H).

(** A decoded layer always carries a key of the blend table with the
    name the table gives it. *)
Lemma layer_blend_known f layer f' :
  PSDLayer.parse f = Ok layer f' →
  PSDLayer.blendMap !! (PSDLayer.blend layer).1 = Some (PSDLayer.blend layer).2.
Proof.
  unfold PSDLayer.parse. intros H.
  do 7 bind_inv H.
  match goal with E : getitem _ PSDLayer.blendMap _ _ = _ |- _ =>
    apply getitem_Ok_inv in E as [E _] end.
  do 6 bind_inv H.
  now injection H as <- _.
Qed.

(** ** The channel table *)

(** The second entry for an identifier wraps the recorded length in a
    list and leaves the new length out. *)
Lemma record_channel_second channels id a b :
  channels !! id = None →
  PSDLayer.record_channel (PSDLayer.record_channel channels id a) id b !! id
  = Some (Lengths [a]).
Proof.
  intros Hfree. unfold PSDLayer.record_channel at 2. rewrite Hfree.
  unfold PSDLayer.record_channel. rewrite lookup_insert_eq.
  apply lookup_insert_eq.
Qed.

(** From the third entry on, lengths are appended. *)
Lemma record_channel_later channels id l c :
  channels !! id = Some (Lengths l) →
  PSDLayer.record_channel channels id c !! id = Some (Lengths (l ++ [c])).
Proof.
  intros Hl. unfold PSDLayer.record_channel. rewrite Hl.
  apply lookup_insert_eq.
Qed.

(** C1: a layer record with the two channel entries (0, 10) and (0, 20)
    decodes to a channel dict that holds, for identifier 0, the list
    with the first length only; the second length is not recorded. *)
Theorem repeated_channel_id_drops_length :
  ∃ layer f',
    PSDLayer.parse
      (Cursor 0 (layer_bytes (Rectangle 0 0 10 10) 2 [(0, 10); (0, 20)]
                   "8BIM" "norm" 255 0 Byte.x02))
    = Ok layer f'
    ∧ PSDLayer.channels layer !! 0 = Some (Lengths [10])
    ∧ PSDLayer.channels layer !! 0 ≠ Some (Lengths [10; 20]).
Proof.
  eexists _, _. split; [vm_compute; reflexivity|].
  split; [vm_compute; reflexivity | vm_compute; discriminate].
Qed.

(** ** The flags byte *)

(** The flags of a decoded layer are the bits at indexes 0 and 1 of the
    bit list of the flags byte, that is its bits 7 and 6. *)
Lemma layer_flags_bits r chans key name opacity clipping cname flags tail p :
  Z.of_nat (length chans) < 2 ^ 15 →
  String.length key = 4%nat →
  PSDLayer.blendMap !! key = Some name →
  PSDLayer.clippingMap !! (clipping mod 256) = Some cname →
  ∃ layer f',
    PSDLayer.parse
      (Cursor p (layer_bytes r (Z.of_nat (length chans)) chans SIGNATIRE_8BIM key
                   opacity clipping flags ++ tail))
    = Ok layer f'
    ∧ PSDLayer.transpProtected layer = Z.testbit (Z.of_N (Byte.to_N flags)) 7
    ∧ PSDLayer.visible layer = Z.testbit (Z.of_N (Byte.to_N flags)) 6.
Proof.
  intros Hn Hk Hb Hc.
  rewrite layer_parse_bytes; [|rewrite to_signed_16; lia|done..].
  unfold layer_outcome. rewrite bool_decide_eq_true_2 by reflexivity.
  rewrite Hb, Hc. eauto.
Qed.

(** C2: on a layer record whose flags byte is 0x01 (bit 0 set, bit 1
    clear), the decoded transparency-protected field is false: the field
    is taken at index 0 of a bit list that starts at bit 7. *)
Theorem flags_taken_from_high_bits :
  ∃ layer f',
    PSDLayer.parse
      (Cursor 0 (layer_bytes (Rectangle 0 0 10 10) 1 [(0, 10)]
                   "8BIM" "norm" 255 0 Byte.x01))
    = Ok layer f'
    ∧ Z.testbit (Z.of_N (Byte.to_N Byte.x01)) 0 = true
    ∧ PSDLayer.transpProtected layer = false
    ∧ PSDLayer.transpProtected layer
      ≠ Z.testbit (Z.of_N (Byte.to_N Byte.x01)) 0.
Proof.
  eexists _, _. split; [vm_compute; reflexivity|].
  repeat split; try (vm_compute; reflexivity). vm_compute. discriminate.
Qed.

(** ** The layer and mask section *)






Lemma layer_mask_parse_bytes total info count body p :
  0 <= total < 2 ^ 32 → 0 <= info < 2 ^ 32 → - 2 ^ 15 <= count < 2 ^ 15 →
  PSDLayerMask.parse (Cursor p (be32 total ++ be32 info ++ be16 count ++ body))
  = (layers ← PSDLayerMask.read_layers (Z.to_nat (Z.abs count)) [];
     masklength ← readInt;
     skip masklength;;
     mret (PSDLayerMask.Make total info (Z.abs count) layers masklength))
      (Cursor (p + 10) body).
Proof.
  intros Ht Hi Hc. unfold PSDLayerMask.parse, updateLength.
  erewrite bind_Ok by (now apply readInt_be32_unsigned).
  erewrite bind_Ok by (now apply readInt_be32_unsigned).
  erewrite bind_Ok by (now apply readShortInt_be16_signed).
  replace (p + 4 + 4 + 2) with (p + 10) by lia.
  destruct (Z.ltb_spec count 0); [reflexivity|].
  now rewrite Z.abs_eq by lia.
Qed.



(** * Further properties of the decoders *)

(** ** validate: the order of the constraints *)

(** With a truthy [mustBe] the other two constraints are never looked
    at: the call returns exactly when the value equals [mustBe], also
    when that value lies outside [range] and [list]. *)
Theorem validate_mustBe_decides (label : string) (value m : pyval)
    (range : option pyrange) (list : option (list Z)) :
  truthy m = true →
  validate label value range (Some m) list = None ↔ value = m.
Proof.
  intros T. unfold validate. cbn [from_option]. rewrite T.
  case_bool_decide; split; intros; done.
Qed.

Lemma validate_mustBe_decides_witness :
  validate "Version" (PyInt 1) (Some (Range 5 9)) (Some (PyInt 1)) (Some [7])
  = None.
Proof.
  apply (validate_mustBe_decides "Version" (PyInt 1) (PyInt 1)
           (Some (Range 5 9)) (Some [7])); reflexivity.
Defined.

(** A falsy [mustBe] (0, the empty string) counts as not given: the
    call is the one with [range] and [list] alone. *)
Theorem validate_falsy_mustBe_not_given (label : string) (value m : pyval)
    (range : option pyrange) (list : option (list Z)) :
  truthy m = false →
  validate label value range (Some m) list = validate label value range None list.
Proof. intros F. unfold validate. cbn [from_option]. now rewrite F. Qed.

Lemma validate_falsy_mustBe_not_given_witness :
  validate "Clipping" (PyInt 3) (Some (Range 0 2)) (Some (PyInt 0)) None
  = validate "Clipping" (PyInt 3) (Some (Range 0 2)) None None.
Proof.
  apply (validate_falsy_mustBe_not_given "Clipping" (PyInt 3) (PyInt 0)
           (Some (Range 0 2)) None). reflexivity.
Defined.



(** With neither a truthy [mustBe] nor a non-empty [range], a non-empty
    [list] lets through exactly its members. *)
Theorem validate_list_decides (label : string) (n : Z) (l : list Z)
    (m : option pyval) (range : option pyrange) :
  from_option truthy false m = false →
  from_option range_truthy false range = false →
  l ≠ [] →
  validate label (PyInt n) range m (Some l) = None ↔ n ∈ l.
Proof.
  intros F R Hl. unfold validate. rewrite F, R. cbn [from_option].
  destruct l as [|x l]; [done|]. cbn [list_truthy list_contains].
  destruct (existsb (Z.eqb n) (x :: l)) eqn:E; cbn.
  - split; [intros _|done].
    apply existsb_exists in E as (y & Hy & Hn). apply Z.eqb_eq in Hn.
    subst y. now apply list_elem_of_In.
  - split; [done|]. intros Hin. apply list_elem_of_In in Hin.
    assert (existsb (Z.eqb n) (x :: l) = true); [|congruence].
    apply existsb_exists. exists n. split; [done | apply Z.eqb_refl].
Qed.

Lemma validate_list_decides_witness :
  validate "Depth" (PyInt 16) None None (Some DEPTH_LIST) = None.
Proof.
  apply (validate_list_decides "Depth" 16 DEPTH_LIST None None);
    [reflexivity | reflexivity | discriminate |].
  unfold DEPTH_LIST. rewrite !elem_of_cons. right. right. left. reflexivity.
Defined.

(** An empty range and an empty list are falsy, so they constrain
    nothing: without a truthy [mustBe] every value passes. *)
Theorem validate_empty_constraints (label : string) (value : pyval)
    (r : pyrange) (m : option pyval) :
  from_option truthy false m = false →
  stop r <= start r →
  validate label value (Some r) m (Some []) = None.
Proof.
  intros F E. unfold validate. rewrite F. cbn [from_option].
  unfold range_truthy. destruct (Z.ltb_spec (start r) (stop r)); [lia|done].
Qed.

Lemma validate_empty_constraints_witness :
  validate "Channels number" (PyInt 99) (Some (Range 5 5)) None (Some []) = None.
Proof.
  apply (validate_empty_constraints "Channels number" (PyInt 99) (Range 5 5) None);
    [reflexivity | cbn; lia].
Defined.

(** ** What a successful read tells *)

Lemma read_inv n f bs f' :
  read n f = Ok bs f' →
  (n ≤ length (rest f))%nat ∧ bs = take n (rest f) ∧ f' = advance n f.
Proof.
  unfold read. destruct (Nat.leb_spec n (length (rest f))); [|discriminate].
  intros [= <- <-]. done.
Qed.

Lemma readString_inv n f s f' :
  readString n f = Ok s f' →
  (n ≤ length (rest f))%nat ∧ s = string_of_list_byte (take n (rest f))
  ∧ f' = advance n f.
Proof.
  intros H. bind_inv H. apply read_inv in E as (L & -> & ->).
  now injection H as <- <-.
Qed.

Lemma readShortInt_inv f n f' :
  readShortInt f = Ok n f' →
  (2 ≤ length (rest f))%nat ∧ n = to_signed 16 (be_uint (take 2 (rest f)))
  ∧ f' = advance 2 f.
Proof.
  intros H. bind_inv H. apply read_inv in E as (L & -> & ->).
  now injection H as <- <-.
Qed.

Lemma readInt_inv f n f' :
  readInt f = Ok n f' →
  (4 ≤ length (rest f))%nat ∧ n = be_uint (take 4 (rest f)) ∧ f' = advance 4 f.
Proof.
  intros H. bind_inv H. apply read_inv in E as (L & -> & ->).
  now injection H as <- <-.
Qed.

Lemma readTinyInt_inv f n f' :
  readTinyInt f = Ok n f' →
  (1 ≤ length (rest f))%nat ∧ n = be_uint (take 1 (rest f)) ∧ f' = advance 1 f.
Proof.
  intros H. bind_inv H. apply read_inv in E as (L & -> & ->).
  now injection H as <- <-.
Qed.

Lemma skip_inv n f u f' :
  skip n f = Ok u f' →
  (Z.to_nat n ≤ length (rest f))%nat ∧ f' = advance (Z.to_nat n) f.
Proof.
  intros H. bind_inv H. apply read_inv in E as (L & _ & ->).
  now injection H as _ <-.
Qed.

Lemma check_inv r f u f' : check r f = Ok u f' → r = None ∧ f' = f.
Proof. destruct r; [discriminate|]. now intros [= _ <-]. Qed.

Lemma advance_advance a b f : advance a (advance b f) = advance (b + a) f.
Proof.
  unfold advance. cbn [tell rest]. rewrite drop_drop. f_equal. lia.
Qed.

Lemma length_rest_advance n f :
  length (rest (advance n f)) = (length (rest f) - n)%nat.
Proof. unfold advance. cbn [rest]. apply length_drop. Qed.

Lemma be_uint_bound bs : be_uint bs < 256 ^ Z.of_nat (length bs).
Proof.
  induction bs as [|b bs IH] using rev_ind; [done|].
  rewrite be_uint_snoc, length_app, Nat2Z.inj_add, Z.pow_add_r by lia.
  change (256 ^ Z.of_nat (length [b])) with 256.
  pose proof (Byte.to_N_bounded b). lia.
Qed.

Lemma validate_mustBe_inv label value m :
  truthy m = true → validate label value None (Some m) None = None → value = m.
Proof.
  intros T. rewrite validate_mustBe by done.
  case_bool_decide as E; [discriminate|]. intros _.
  now destruct (decide (value = m)).
Qed.

Lemma validate_range_inv label lo hi n :
  lo < hi → validate label (PyInt n) (Some (Range lo hi)) None None = None →
  lo <= n < hi.
Proof.
  intros L. rewrite validate_range by (unfold range_truthy; cbn; lia).
  destruct (range_contains _ _) eqn:E; [|discriminate].
  intros _. now apply range_contains_int in E.
Qed.

Lemma validate_depth_inv label d :
  validate label (PyInt d) None None (Some DEPTH_LIST) = None →
  d = 1 ∨ d = 8 ∨ d = 16.
Proof.
  rewrite validate_list by reflexivity.
  destruct (list_contains _ _) eqn:E; [|discriminate].
  intros _. now apply depth_list_contains in E.
Qed.

(** ** Every decoded header *)

Lemma header_parse_inv f h f' :
  PSDHeader.parse f = Ok h f' →
  PSDHeader.signature h = SIGNATURE
  ∧ PSDHeader.version h = VERSION
  ∧ 1 <= PSDHeader.channelsNum h <= 56
  ∧ 1 <= PSDHeader.height h <= 30000
  ∧ 1 <= PSDHeader.width h <= 30000
  ∧ (PSDHeader.depth h = 1 ∨ PSDHeader.depth h = 8 ∨ PSDHeader.depth h = 16)
  ∧ PSDHeader.colorModeMap !! PSDHeader.code (PSDHeader.colorMode h)
    = Some (PSDHeader.label (PSDHeader.colorMode h))
  ∧ (26 ≤ length (rest f))%nat
  ∧ f' = advance 26 f.
Proof.
  unfold PSDHeader.parse. intros H.
  bind_inv H. apply readString_inv in E as (L1 & Es & ->).
  bind_inv H. apply check_inv in E as (V1 & ->).
  bind_inv H. apply readShortInt_inv in E as (L2 & Ev & ->).
  bind_inv H. apply check_inv in E as (V2 & ->).
  bind_inv H. apply skip_inv in E as (L3 & ->).
  bind_inv H. apply readShortInt_inv in E as (L4 & Ec & ->).
  bind_inv H. apply check_inv in E as (V3 & ->).
  bind_inv H. apply readInt_inv in E as (L5 & Eh & ->).
  bind_inv H. apply check_inv in E as (V4 & ->).
  bind_inv H. apply readInt_inv in E as (L6 & Ew & ->).
  bind_inv H. apply check_inv in E as (V5 & ->).
  bind_inv H. apply readShortInt_inv in E as (L7 & Ed & ->).
  bind_inv H. apply check_inv in E as (V6 & ->).
  bind_inv H. apply readShortInt_inv in E as (L8 & Em & ->).
  bind_inv H. apply getitem_Ok_inv in E as (Elab & ->).
  injection H as <- <-. cbn [PSDHeader.signature PSDHeader.version
    PSDHeader.channelsNum PSDHeader.height PSDHeader.width PSDHeader.depth
    PSDHeader.colorMode PSDHeader.code PSDHeader.label].
  apply validate_mustBe_inv in V1; [|reflexivity].
  apply validate_mustBe_inv in V2; [|reflexivity].
  apply validate_range_inv in V3; [|lia].
  apply validate_range_inv in V4; [|lia].
  apply validate_range_inv in V5; [|lia].
  apply validate_depth_inv in V6.
  rewrite !advance_advance in *. rewrite !length_rest_advance in *.
  change (Z.to_nat 6) with 6%nat in *.
  repeat split; try congruence; try lia.
Qed.

(** A header that decodes has passed every check: it carries the
    expected signature and version, a channel count in 1..56, a height
    and a width in 1..30000, a depth of 1, 8 or 16, and a colour mode
    code of the table with the label the table gives it. *)
Theorem header_decoded_is_valid (f : cursor) (h : PSDHeader.t) (f' : cursor) :
  PSDHeader.parse f = Ok h f' →
  PSDHeader.signature h = "8BPS"%string
  ∧ PSDHeader.version h = 1
  ∧ 1 <= PSDHeader.channelsNum h <= 56
  ∧ 1 <= PSDHeader.height h <= 30000
  ∧ 1 <= PSDHeader.width h <= 30000
  ∧ (PSDHeader.depth h = 1 ∨ PSDHeader.depth h = 8 ∨ PSDHeader.depth h = 16)
  ∧ PSDHeader.colorModeMap !! PSDHeader.code (PSDHeader.colorMode h)
    = Some (PSDHeader.label (PSDHeader.colorMode h)).
Proof. intros H. apply header_parse_inv in H. tauto. Qed.

Lemma header_decoded_is_valid_witness :
  PSDHeader.signature
    (PSDHeader.Make SIGNATURE VERSION 3 10 10 8 (PSDHeader.ColorMode 3 "RGB Color"))
  = "8BPS"%string.
Proof.
  refine (proj1 (header_decoded_is_valid
                   (header_source (replicate 6 "000"%byte) 3 10 10 8 3 [] 0)
                   _ (Cursor 26 []) _)).
  vm_compute. reflexivity.
Defined.

(** A header that decodes has read exactly 26 bytes: the cursor is 26
    bytes further on, whatever the fields hold. *)
Theorem header_consumes_26_bytes (f : cursor) (h : PSDHeader.t) (f' : cursor) :
  PSDHeader.parse f = Ok h f' →
  tell f' = tell f + 26 ∧ rest f' = drop 26 (rest f)
  ∧ getsize f' = getsize f.
Proof.
  intros H. apply header_parse_inv in H as (_ & _ & _ & _ & _ & _ & _ & L & ->).
  unfold getsize, advance. cbn [tell rest]. rewrite length_drop.
  repeat split; lia.
Qed.

Lemma header_consumes_26_bytes_witness :
  tell (Cursor 26 (be32 0)) = 0 + 26
  ∧ rest (Cursor 26 (be32 0))
    = drop 26 (rest (header_source (replicate 6 "000"%byte) 3 10 10 8 3 (be32 0) 0))
  ∧ getsize (Cursor 26 (be32 0))
    = getsize (header_source (replicate 6 "000"%byte) 3 10 10 8 3 (be32 0) 0).
Proof.
  refine (header_consumes_26_bytes
            (header_source (replicate 6 "000"%byte) 3 10 10 8 3 (be32 0) 0)
            (PSDHeader.Make SIGNATURE VERSION 3 10 10 8
               (PSDHeader.ColorMode 3 "RGB Color"))
            (Cursor 26 (be32 0)) _).
  vm_compute. reflexivity.
Defined.

(** A source with fewer than 26 bytes left never yields a header. *)
Theorem header_short_source_fails (f : cursor) :
  (length (rest f) < 26)%nat → ∃ e, PSDHeader.parse f = Raise e.
Proof.
  intros L. destruct (PSDHeader.parse f) as [h f'|e] eqn:E; [|eauto].
  apply header_parse_inv in E. lia.
Qed.

Lemma header_short_source_fails_witness :
  ∃ e, PSDHeader.parse
         (Cursor 0 (take 25 (header_bytes SIGNATURE VERSION (replicate 6 "000"%byte)
                               3 10 10 8 3)))
       = Raise e.
Proof.
  apply (header_short_source_fails
           (Cursor 0 (take 25 (header_bytes SIGNATURE VERSION
                                 (replicate 6 "000"%byte) 3 10 10 8 3)))).
  vm_compute. lia.
Defined.

(** A header with the expected signature and any version other than 1
    is refused on the version, before the reserved bytes and the
    dimensions are read. *)
Theorem header_version_mismatch (version : Z) (tail : list byte) (p : Z) :
  - 2 ^ 15 <= version < 2 ^ 15 →
  version ≠ 1 →
  PSDHeader.parse (Cursor p (list_byte_of_string SIGNATURE ++ be16 version ++ tail))
  = Raise (BaseException ("Version should be 1 but was " +:+ str_of_Z version)).
Proof.
  intros Hv Hne. unfold PSDHeader.parse.
  erewrite bind_Ok by (now apply readString_n).
  rewrite bind_check.
  change (validate "Signature" _ _ _ _) with (@None exn).
  erewrite bind_Ok by (now apply readShortInt_be16_signed).
  rewrite bind_check, validate_mustBe by reflexivity.
  rewrite bool_decide_eq_true_2; [reflexivity|].
  unfold VERSION. congruence.
Qed.

Lemma header_version_mismatch_witness :
  PSDHeader.parse (Cursor 0 (list_byte_of_string SIGNATURE ++ be16 2 ++ []))
  = Raise (BaseException "Version should be 1 but was 2").
Proof.
  apply (header_version_mismatch 2 [] 0); lia.
Defined.

(** The six reserved bytes are skipped unread: two headers that differ
    in them only decode alike, to the same header or the same
    exception. *)
Theorem header_reserved_ignored (signature : string) (reserved reserved' tail : list byte)
    (version channels rows columns depth mode : Z) (p : Z) :
  String.length signature = 4%nat →
  length reserved = 6%nat → length reserved' = 6%nat →
  0 <= rows < 2 ^ 32 → 0 <= columns < 2 ^ 32 →
  PSDHeader.parse
    (Cursor p (header_bytes signature version reserved channels rows columns
                 depth mode ++ tail))
  = PSDHeader.parse
      (Cursor p (header_bytes signature version reserved' channels rows columns
                   depth mode ++ tail)).
Proof. intros. now rewrite !header_parse_bytes. Qed.

Lemma header_reserved_ignored_witness :
  PSDHeader.parse
    (Cursor 0 (header_bytes "8BPS" 1 (replicate 6 Byte.xff) 3 10 10 8 3 ++ []))
  = PSDHeader.parse
      (Cursor 0 (header_bytes "8BPS" 1 (replicate 6 Byte.x00) 3 10 10 8 3 ++ [])).
Proof.
  apply (header_reserved_ignored "8BPS" (replicate 6 Byte.xff)
           (replicate 6 Byte.x00) [] 1 3 10 10 8 3 0);
    first [reflexivity | lia].
Defined.

(** [PSDHeader(fileObj)] refuses a file that is not at its beginning
    with a [TypeError], whatever the file holds; a header it returns
    was read from offset 0 and leaves the file at offset 26. *)
Theorem header_init_offsets (f : cursor) :
  (tell f ≠ 0 →
   PSDHeader.init f
   = Raise (TypeError
       "Argument should be file pointer and it should be at the beginning of file"))
  ∧ (∀ h f', PSDHeader.init f = Ok h f' → tell f = 0 ∧ tell f' = 26).
Proof.
  unfold PSDHeader.init, construct. split.
  - intros Hne. now rewrite bool_decide_eq_true_2.
  - intros h f'. case_bool_decide as E; [discriminate|].
    intros H. apply header_parse_inv in H as (_ & _ & _ & _ & _ & _ & _ & _ & ->).
    assert (tell f = 0) as E0 by (destruct (decide (tell f = 0)); done).
    split; [done|]. unfold advance. cbn [tell]. lia.
Qed.

Lemma header_init_offsets_witness :
  PSDHeader.init (header_source (replicate 6 Byte.x00) 3 10 10 8 3 [] 4)
  = Raise (TypeError
      "Argument should be file pointer and it should be at the beginning of file").
Proof.
  apply (proj1 (header_init_offsets
                  (header_source (replicate 6 Byte.x00) 3 10 10 8 3 [] 4))).
  cbn. lia.
Defined.

(** ** The channel loop *)

Lemma record_channel_lookup channels id len :
  PSDLayer.record_channel channels id len !! id = next_value (channels !! id) len.
Proof.
  unfold PSDLayer.record_channel, next_value.
  destruct (channels !! id) as [[n|l]|]; apply lookup_insert_eq.
Qed.

Lemma record_channel_lookup_ne channels id id' len :
  id ≠ id' →
  PSDLayer.record_channel channels id len !! id' = channels !! id'.
Proof.
  intros Hne. unfold PSDLayer.record_channel.
  destruct (channels !! id) as [[n|l]|]; now apply lookup_insert_ne.
Qed.

Lemma record_channels_lookup chans channels id :
  fold_left (λ m c, PSDLayer.record_channel m c.1 c.2) chans channels !! id
  = fold_left next_value (lengths_of id chans) (channels !! id).
Proof.
  revert channels. induction chans as [|[i len] chans IH]; intros channels; [done|].
  cbn [fold_left]. rewrite IH. unfold lengths_of. rewrite filter_cons.
  cbn [fst snd]. destruct (decide (i = id)) as [->|Hne].
  - cbn [fmap list_fmap fold_left snd]. now rewrite record_channel_lookup.
  - now rewrite record_channel_lookup_ne.
Qed.

Lemma next_value_Lengths more l :
  fold_left next_value more (Some (Lengths l)) = Some (Lengths (l ++ more)).
Proof.
  revert l. induction more as [|x more IH]; intros l.
  - now rewrite app_nil_r.
  - cbn [fold_left next_value]. rewrite IH. now rewrite <- app_assoc.
Qed.

Lemma next_value_kept ls : fold_left next_value ls None = kept_lengths ls.
Proof.
  destruct ls as [|a [|b more]]; [done..|].
  cbn [fold_left next_value kept_lengths]. apply next_value_Lengths.
Qed.

Lemma channel_table_decoded chans :
  Forall channel_entry_ok chans →
  channel_table chans
  = fold_left (λ m c, PSDLayer.record_channel m c.1 c.2) chans ∅.
Proof.
  unfold channel_table. generalize (∅ : gmap Z chan_val).
  induction chans as [|c chans IH]; intros m Hok; [done|].
  apply Forall_cons in Hok as [[Hid Hlen] Hok]. cbn [fold_left].
  rewrite to_signed_16, Z.mod_small by done. now apply IH.
Qed.

Lemma read_channels_table chans tail p :
  PSDLayer.read_channels (length chans) ∅
    (Cursor p (concat (map channel_bytes chans) ++ tail))
  = Ok (channel_table chans) (Cursor (p + 6 * Z.of_nat (length chans)) tail).
Proof. apply read_channels_bytes. Qed.

(** The channel loop, read over a channel table: for every identifier
    the dict holds what [kept_lengths] says of the lengths declared for
    it.  No entry for the identifier: no key.  One entry: its bare
    length.  Two or more: a list, where the length of the second entry
    is missing and all the others are in file order. *)
Theorem channel_loop_result (chans : list (Z * Z)) (tail : list byte) (p : Z) :
  Forall channel_entry_ok chans →
  ∃ channels,
    PSDLayer.read_channels (length chans) ∅
      (Cursor p (concat (map channel_bytes chans) ++ tail))
    = Ok channels (Cursor (p + 6 * Z.of_nat (length chans)) tail)
    ∧ ∀ id, channels !! id = kept_lengths (lengths_of id chans).
Proof.
  intros Hok. exists (channel_table chans). split; [apply read_channels_table|].
  intros id. rewrite channel_table_decoded by done.
  now rewrite record_channels_lookup, lookup_empty, next_value_kept.
Qed.

Lemma channel_loop_result_witness :
  ∃ channels,
    PSDLayer.read_channels (length [(0, 10); (-1, 7); (0, 20); (0, 30)]) ∅
      (Cursor 18 (concat (map channel_bytes [(0, 10); (-1, 7); (0, 20); (0, 30)])
                  ++ []))
    = Ok channels
        (Cursor (18 + 6 * Z.of_nat (length [(0, 10); (-1, 7); (0, 20); (0, 30)])) [])
    ∧ ∀ id, channels !! id
            = kept_lengths (lengths_of id [(0, 10); (-1, 7); (0, 20); (0, 30)]).
Proof.
  apply (channel_loop_result [(0, 10); (-1, 7); (0, 20); (0, 30)] [] 18).
  repeat constructor; cbn; lia.
Defined.

Lemma lengths_of_NoDup chans id len :
  NoDup chans.*1 → (id, len) ∈ chans → lengths_of id chans = [len].
Proof.
  unfold lengths_of. induction chans as [|[i l] chans IH]; intros Hnd Hin.
  - now apply elem_of_nil in Hin.
  - cbn [fmap list_fmap fst] in Hnd. apply NoDup_cons in Hnd as [Hfresh Hnd].
    rewrite filter_cons. cbn [fst].
    apply elem_of_cons in Hin as [[= <- <-]|Hin].
    + rewrite decide_True by done. cbn [fmap list_fmap snd]. f_equal.
      destruct (filter (λ c : Z * Z, c.1 = id) chans) as [|[j k] more] eqn:E;
        [done|].
      exfalso.
      assert (Hjk : (j, k) ∈ filter (λ c : Z * Z, c.1 = id) chans)
        by (rewrite E; apply list_elem_of_here).
      apply list_elem_of_filter in Hjk as [Ej Hjk]. cbn in Ej. subst j.
      apply Hfresh. apply list_elem_of_fmap. now exists (id, k).
    + destruct (decide (i = id)) as [->|Hne].
      * exfalso. apply Hfresh. apply list_elem_of_fmap. now exists (id, len).
      * now apply IH.
Qed.

(** A channel table whose identifiers are pairwise distinct decodes to
    the dict that maps each identifier to its bare length. *)
Theorem channel_loop_distinct_ids (chans : list (Z * Z)) (tail : list byte) (p : Z) :
  Forall channel_entry_ok chans →
  NoDup chans.*1 →
  ∃ channels f',
    PSDLayer.read_channels (length chans) ∅
      (Cursor p (concat (map channel_bytes chans) ++ tail))
    = Ok channels f'
    ∧ ∀ id len, (id, len) ∈ chans → channels !! id = Some (Length len).
Proof.
  intros Hok Hnd. eexists _, _. split; [apply read_channels_table|].
  intros id len Hin. rewrite channel_table_decoded by done.
  rewrite record_channels_lookup, lookup_empty, next_value_kept.
  now rewrite (lengths_of_NoDup chans id len).
Qed.

Lemma channel_loop_distinct_ids_witness :
  ∃ channels f',
    PSDLayer.read_channels (length [(-1, 7); (0, 10); (1, 10); (2, 10)]) ∅
      (Cursor 18 (concat (map channel_bytes [(-1, 7); (0, 10); (1, 10); (2, 10)])
                  ++ []))
    = Ok channels f'
    ∧ ∀ id len, (id, len) ∈ [(-1, 7); (0, 10); (1, 10); (2, 10)] →
                channels !! id = Some (Length len).
Proof.
  apply (channel_loop_distinct_ids [(-1, 7); (0, 10); (1, 10); (2, 10)] [] 18).
  - repeat constructor; cbn; lia.
  - cbn. repeat (apply NoDup_cons; split; [rewrite ?elem_of_cons, elem_of_nil; lia|]).
    apply NoDup_nil_2.
Defined.

(** The keys of the decoded dict are exactly the identifiers that occur
    in the channel table. *)
Theorem channel_loop_keys (chans : list (Z * Z)) (tail : list byte) (p : Z) :
  Forall channel_entry_ok chans →
  ∃ channels f',
    PSDLayer.read_channels (length chans) ∅
      (Cursor p (concat (map channel_bytes chans) ++ tail))
    = Ok channels f'
    ∧ dom channels = list_to_set chans.*1.
Proof.
  intros Hok. eexists _, _. split; [apply read_channels_table|].
  rewrite channel_table_decoded by done. apply set_eq. intros id.
  rewrite elem_of_dom, record_channels_lookup, lookup_empty, next_value_kept.
  rewrite elem_of_list_to_set. unfold lengths_of.
  split.
  - intros [v Hv].
    destruct (filter (λ c : Z * Z, c.1 = id) chans) as [|[i l] more] eqn:E;
      [discriminate|].
    assert (Hin : (i, l) ∈ filter (λ c : Z * Z, c.1 = id) chans)
      by (rewrite E; apply list_elem_of_here).
    apply list_elem_of_filter in Hin as [Hi Hin]. cbn in Hi. subst i.
    apply list_elem_of_fmap. now exists (id, l).
  - intros Hin. apply list_elem_of_fmap in Hin as ([i l] & -> & Hin). cbn [fst].
    assert (Hf : (i, l) ∈ filter (λ c : Z * Z, c.1 = i) chans)
      by (now apply list_elem_of_filter).
    destruct (filter (λ c : Z * Z, c.1 = i) chans) as [|c [|c' more]];
      [now apply elem_of_nil in Hf | by eexists | by eexists].
Qed.

Lemma channel_loop_keys_witness :
  ∃ channels f',
    PSDLayer.read_channels (length [(0, 10); (-1, 7); (0, 20)]) ∅
      (Cursor 18 (concat (map channel_bytes [(0, 10); (-1, 7); (0, 20)]) ++ []))
    = Ok channels f'
    ∧ dom channels = list_to_set [(0, 10); (-1, 7); (0, 20)].*1.
Proof.
  apply (channel_loop_keys [(0, 10); (-1, 7); (0, 20)] [] 18).
  repeat constructor; cbn; lia.
Defined.

(** ** Every decoded layer *)

Lemma consumed_trans a b f f1 f2 :
  consumed a f f1 → consumed b f1 f2 → consumed (a + b) f f2.
Proof.
  intros [La ->] [Lb ->]. rewrite length_rest_advance in Lb.
  split; [lia | apply advance_advance].
Qed.

Lemma consumed_eq a b f f' : a = b → consumed a f f' → consumed b f f'.
Proof. now intros ->. Qed.

Lemma consumed_tell n f f' : consumed n f f' → tell f' = tell f + Z.of_nat n.
Proof. now intros [_ ->]. Qed.

Lemma length_string_of_list_byte bs :
  String.length (string_of_list_byte bs) = length bs.
Proof.
  unfold string_of_list_byte.
  induction bs as [|b bs IH]; cbn; congruence.
Qed.

Lemma readString_consumed n f s f' :
  readString n f = Ok s f' → consumed n f f' ∧ String.length s = n.
Proof.
  intros H. apply readString_inv in H as (L & -> & ->). split; [done|].
  rewrite length_string_of_list_byte, length_take. lia.
Qed.

Lemma readShortInt_consumed f n f' :
  readShortInt f = Ok n f' → consumed 2 f f'.
Proof. intros H. now apply readShortInt_inv in H as (L & _ & ->). Qed.

Lemma readInt_consumed f n f' : readInt f = Ok n f' → consumed 4 f f'.
Proof. intros H. now apply readInt_inv in H as (L & _ & ->). Qed.

Lemma readTinyInt_consumed f n f' :
  readTinyInt f = Ok n f' → consumed 1 f f' ∧ 0 <= n < 256.
Proof.
  intros H. apply readTinyInt_inv in H as (L & -> & ->). split; [done|].
  split; [apply be_uint_nonneg|].
  pose proof (be_uint_bound (take 1 (rest f))) as B.
  rewrite length_take in B.
  now replace (1 `min` length (rest f))%nat with 1%nat in B by lia.
Qed.

Lemma getRectangle_consumed f r f' : getRectangle f = Ok r f' → consumed 16 f f'.
Proof.
  intros H.
  bind_inv H. apply read_inv in E as (L1 & _ & E1).
  bind_inv H. apply read_inv in E as (L2 & _ & E2).
  bind_inv H. apply read_inv in E as (L3 & _ & E3).
  bind_inv H. apply read_inv in E as (L4 & _ & E4).
  injection H as _ <-.
  apply (consumed_trans 12 4 f f2); [|done].
  apply (consumed_trans 8 4 f f1); [|done].
  now apply (consumed_trans 4 4 f f0).
Qed.

Lemma read_channels_consumed n channels f channels' f' :
  PSDLayer.read_channels n channels f = Ok channels' f' →
  consumed (n * 6) f f'.
Proof.
  revert channels f. induction n as [|n IH]; intros channels f.
  - cbn. intros [= _ <-]. split; [lia|]. unfold advance. cbn.
    destruct f; cbn. f_equal. lia.
  - cbn [PSDLayer.read_channels]. intros H.
    bind_inv H. apply readShortInt_consumed in E.
    bind_inv H. apply readInt_consumed in E0.
    apply IH in H.
    eapply consumed_eq; [|exact (consumed_trans _ _ _ _ _
                                   (consumed_trans _ _ _ _ _ E E0) H)].
    lia.
Qed.

Lemma readBits_1_consumed f bits f' :
  readBits 1 f = Ok bits f' → consumed 1 f f'.
Proof.
  intros H. bind_inv H. apply read_inv in E as (L & _ & ->).
  now injection H as _ <-.
Qed.

Lemma index_inv {A} (l : list A) i f x f' :
  index l i f = Ok x f' → l !! i = Some x ∧ f' = f.
Proof.
  unfold index. destruct (l !! i); [|discriminate]. now intros [= <- <-].
Qed.

Lemma clippingMap_lookup c name :
  PSDLayer.clippingMap !! c = Some name →
  (c = 0 ∧ name = "base"%string) ∨ (c = 1 ∧ name = "non-base"%string).
Proof.
  unfold PSDLayer.clippingMap. cbn [list_to_map foldr fst snd].
  rewrite !lookup_insert_Some, lookup_empty. intuition (try discriminate; auto).
Qed.

Ltac bind_step H E :=
  let a := fresh "a" in let f := fresh "f" in
  apply bind_Ok_inv in H as (a & f & E & H).

Lemma layer_parse_inv f layer f' :
  PSDLayer.parse f = Ok layer f' →
  String.length (PSDLayer.blend layer).1 = 4%nat
  ∧ PSDLayer.blendMap !! (PSDLayer.blend layer).1 = Some (PSDLayer.blend layer).2
  ∧ PSDLayer.clippingMap !! (PSDLayer.clipping layer).1
    = Some (PSDLayer.clipping layer).2
  ∧ 0 <= PSDLayer.opacity layer < 256
  ∧ consumed (29 + Z.to_nat (PSDLayer.chanelsCount layer) * 6) f f'.
Proof.
  unfold PSDLayer.parse. intros H.
  bind_step H C1. apply getRectangle_consumed in C1.
  bind_step H C2. apply readShortInt_consumed in C2.
  bind_step H C3. apply read_channels_consumed in C3.
  bind_step H C4. apply readString_consumed in C4 as (C4 & _).
  bind_step H A. case_bool_decide; [|discriminate]. injection A as _ <-.
  bind_step H C5. apply readString_consumed in C5 as (C5 & Hk).
  bind_step H Eb. apply getitem_Ok_inv in Eb as (Eb & ->).
  bind_step H C6. apply readTinyInt_consumed in C6 as (C6 & Ho).
  bind_step H C7. apply readTinyInt_consumed in C7 as (C7 & _).
  bind_step H Ec. apply getitem_Ok_inv in Ec as (Ec & ->).
  bind_step H C8. apply readBits_1_consumed in C8.
  bind_step H I0. apply index_inv in I0 as (_ & ->).
  bind_step H I1. apply index_inv in I1 as (_ & ->).
  injection H as <- <-.
  cbn [PSDLayer.blend PSDLayer.clipping PSDLayer.opacity PSDLayer.chanelsCount
       fst snd].
  pose proof (consumed_trans _ _ _ _ _ C1 C2) as C.
  pose proof (consumed_trans _ _ _ _ _ C C3) as C'. clear C.
  pose proof (consumed_trans _ _ _ _ _ C' C4) as C. clear C'.
  pose proof (consumed_trans _ _ _ _ _ C C5) as C'. clear C.
  pose proof (consumed_trans _ _ _ _ _ C' C6) as C. clear C'.
  pose proof (consumed_trans _ _ _ _ _ C C7) as C'. clear C.
  pose proof (consumed_trans _ _ _ _ _ C' C8) as C. clear C'.
  split; [done|]. split; [done|]. split; [done|]. split; [done|].
  eapply consumed_eq; [|exact C]. lia.
Qed.

(** A layer that decodes carries a blend key of the blend table with
    the name the table gives it, a clipping code 0 with the name base
    or 1 with the name non-base, and an opacity in 0..255. *)
Theorem layer_decoded_is_valid (f : cursor) (layer : PSDLayer.t) (f' : cursor) :
  PSDLayer.parse f = Ok layer f' →
  PSDLayer.blendMap !! (PSDLayer.blend layer).1 = Some (PSDLayer.blend layer).2
  ∧ (PSDLayer.clipping layer = (0, "base"%string)
     ∨ PSDLayer.clipping layer = (1, "non-base"%string))
  ∧ 0 <= PSDLayer.opacity layer <= 255.
Proof.
  intros H. apply layer_parse_inv in H as (_ & Hb & Hc & Ho & _).
  split; [done|]. split; [|lia].
  destruct (PSDLayer.clipping layer) as [c name]. cbn [fst snd] in Hc.
  apply clippingMap_lookup in Hc as [[-> ->]|[-> ->]]; auto.
Qed.

Lemma layer_decoded_is_valid_witness :
  PSDLayer.blendMap !! "norm"%string = Some "normal"%string
  ∧ ((1, "non-base"%string) = (0, "base"%string)
     ∨ (1, "non-base"%string) = (1, "non-base"%string))
  ∧ 0 <= 128 <= 255.
Proof.
  refine (layer_decoded_is_valid
            (Cursor 0 (layer_bytes (Rectangle 0 0 4 4) 1 [(0, 16)] "8BIM" "norm"
                         128 1 Byte.x02))
            (PSDLayer.Make (Rectangle 0 0 4 4) 1 {[0 := Length 16]}
               ("norm", "normal")%string 128 (1, "non-base"%string) false false)
            (Cursor 35 []) _).
  vm_compute. reflexivity.
Defined.

(** A layer that decodes has read 29 bytes and six more for each
    channel entry, and nothing beyond the flags byte: the cursor stands
    right behind the flags, on whatever the file holds there. *)
Theorem layer_consumes (f : cursor) (layer : PSDLayer.t) (f' : cursor) :
  PSDLayer.parse f = Ok layer f' →
  tell f' = tell f + layer_size layer
  ∧ rest f' = drop (Z.to_nat (layer_size layer)) (rest f)
  ∧ layer_size layer <= Z.of_nat (length (rest f)).
Proof.
  intros H. apply layer_parse_inv in H as (_ & _ & _ & _ & L & ->).
  unfold layer_size, advance. cbn [tell rest].
  repeat split; [lia | f_equal; lia | lia].
Qed.

Lemma layer_consumes_witness :
  tell (Cursor 35 (be32 7)) = 0 + 35
  ∧ rest (Cursor 35 (be32 7))
    = drop (Z.to_nat 35)
        (layer_bytes (Rectangle 0 0 4 4) 1 [(0, 16)] "8BIM" "norm" 128 1 Byte.x02
         ++ be32 7)
  ∧ 35 <= Z.of_nat (length (layer_bytes (Rectangle 0 0 4 4) 1 [(0, 16)] "8BIM"
                              "norm" 128 1 Byte.x02 ++ be32 7)).
Proof.
  refine (layer_consumes
            (Cursor 0 (layer_bytes (Rectangle 0 0 4 4) 1 [(0, 16)] "8BIM" "norm"
                         128 1 Byte.x02 ++ be32 7))
            (PSDLayer.Make (Rectangle 0 0 4 4) 1 {[0 := Length 16]}
               ("norm", "normal")%string 128 (1, "non-base"%string) false false)
            (Cursor 35 (be32 7)) _).
  vm_compute. reflexivity.
Defined.

(** The blend key of a decoded layer has four characters, so the
    entries of the blend table under the three-letter keys hue, sat,
    lum and mul are never reached: no layer decodes to the blend names
    hue, saturation, luminosity or multiply. *)
Theorem layer_blend_names_never_decoded (f : cursor) (layer : PSDLayer.t)
    (f' : cursor) :
  PSDLayer.parse f = Ok layer f' →
  String.length (PSDLayer.blend layer).1 = 4%nat
  ∧ (PSDLayer.blend layer).2
    ∉ ["hue"; "saturation"; "luminosity"; "multiply"]%string.
Proof.
  intros H. apply layer_parse_inv in H as (Hk & Hb & _).
  split; [done|].
  destruct (PSDLayer.blend layer) as [key name]. cbn [fst snd] in *.
  apply elem_of_list_to_map_2 in Hb.
  rewrite !elem_of_cons, elem_of_nil in Hb.
  rewrite !elem_of_cons, elem_of_nil.
  repeat (destruct Hb as [Hb|Hb];
          [injection Hb as -> ->; first [discriminate Hk | intros N;
             repeat (destruct N as [N|N]; [discriminate N|]); exact N]|]).
  contradiction.
Qed.

Lemma layer_blend_names_never_decoded_witness :
  String.length "over" = 4%nat
  ∧ "overlay"%string ∉ ["hue"; "saturation"; "luminosity"; "multiply"]%string.
Proof.
  refine (layer_blend_names_never_decoded
            (Cursor 0 (layer_bytes (Rectangle 0 0 4 4) 0 [] "8BIM" "over"
                         128 1 Byte.x02))
            (PSDLayer.Make (Rectangle 0 0 4 4) 0 ∅
               ("over", "overlay")%string 128 (1, "non-base"%string) false false)
            (Cursor 29 []) _).
  vm_compute. reflexivity.
Defined.

(** ** Layer records read back *)

Lemma clipping_code_name c :
  c = 0 ∨ c = 1 → is_Some (PSDLayer.clippingMap !! c).
Proof. intros [->| ->]; by eexists. Qed.

Lemma layer_record_parse l tail p :
  layer_fields_ok l →
  PSDLayer.parse (Cursor p (layer_record l ++ tail))
  = Ok (layer_of_fields l)
       (Cursor (p + 29 + 6 * Z.of_nat (length (lf_channels l))) tail).
Proof.
  intros (Ht & Hl & Hb & Hr & Hn & Hk & [name Hname] & Ho & Hc).
  unfold layer_record. rewrite layer_parse_bytes;
    [|rewrite to_signed_16; lia|done..].
  unfold layer_outcome, layer_of_fields.
  rewrite bool_decide_eq_true_2 by done.
  rewrite !to_signed_32, to_signed_16 by lia.
  rewrite (Z.mod_small (lf_opacity l)) by lia.
  rewrite (Z.mod_small (lf_clipping l)) by lia.
  rewrite Hname. destruct (clipping_code_name _ Hc) as [cname ->].
  cbn [default from_option]. now destruct (lf_rectangle l).
Qed.

(** Round trip: a layer record written with fields that fit (a blend
    key of the table, a clipping code 0 or 1) decodes to exactly those
    fields, the channel dict of its channel table and the two flags,
    and leaves the cursor behind its 29 + 6 n bytes. *)
Theorem layer_round_trip (l : layer_fields) (tail : list byte) (p : Z) :
  layer_fields_ok l →
  ∃ layer,
    PSDLayer.parse (Cursor p (layer_record l ++ tail))
    = Ok layer (Cursor (p + 29 + 6 * Z.of_nat (length (lf_channels l))) tail)
    ∧ PSDLayer.rectangle layer = lf_rectangle l
    ∧ PSDLayer.chanelsCount layer = Z.of_nat (length (lf_channels l))
    ∧ PSDLayer.channels layer = channel_table (lf_channels l)
    ∧ (PSDLayer.blend layer).1 = lf_key l
    ∧ PSDLayer.blendMap !! lf_key l = Some (PSDLayer.blend layer).2
    ∧ PSDLayer.opacity layer = lf_opacity l
    ∧ (PSDLayer.clipping layer).1 = lf_clipping l
    ∧ PSDLayer.clippingMap !! lf_clipping l = Some (PSDLayer.clipping layer).2.
Proof.
  intros Hok. exists (layer_of_fields l). split; [now apply layer_record_parse|].
  destruct Hok as (_ & _ & _ & _ & _ & _ & [name Hname] & _ & Hc).
  destruct (clipping_code_name _ Hc) as [cname Hcname].
  unfold layer_of_fields. cbn [PSDLayer.rectangle PSDLayer.chanelsCount
    PSDLayer.channels PSDLayer.blend PSDLayer.opacity PSDLayer.clipping fst snd].
  rewrite Hname, Hcname. done.
Qed.

Lemma layer_round_trip_witness :
  ∃ layer,
    PSDLayer.parse
      (Cursor 18
         (layer_record (LayerFields (Rectangle (-5) 0 20 30) [(0, 16); (-1, 16)]
                          "scrn" 200 1 Byte.x02) ++ be32 0))
    = Ok layer (Cursor (18 + 29 + 6 * Z.of_nat (length [(0, 16); (-1, 16)])) (be32 0))
    ∧ PSDLayer.rectangle layer = Rectangle (-5) 0 20 30
    ∧ PSDLayer.chanelsCount layer = Z.of_nat (length [(0, 16); (-1, 16)])
    ∧ PSDLayer.channels layer = channel_table [(0, 16); (-1, 16)]
    ∧ (PSDLayer.blend layer).1 = "scrn"%string
    ∧ PSDLayer.blendMap !! "scrn"%string = Some (PSDLayer.blend layer).2
    ∧ PSDLayer.opacity layer = 200
    ∧ (PSDLayer.clipping layer).1 = 1
    ∧ PSDLayer.clippingMap !! 1 = Some (PSDLayer.clipping layer).2.
Proof.
  apply (layer_round_trip
           (LayerFields (Rectangle (-5) 0 20 30) [(0, 16); (-1, 16)] "scrn" 200 1
              Byte.x02) (be32 0) 18).
  unfold layer_fields_ok. cbn.
  repeat split; first [lia | reflexivity | by eexists | (right; reflexivity)].
Defined.

(** A layer record whose blend mode signature is not 8BIM stops the
    decoding on the assertion, before the blend key is read. *)
Theorem layer_bad_signature (r : rectangle_t) (chans : list (Z * Z))
    (bim key : string) (opacity clipping : Z) (flags : byte)
    (tail : list byte) (p : Z) :
  Z.of_nat (length chans) < 2 ^ 15 →
  String.length bim = 4%nat →
  String.length key = 4%nat →
  bim ≠ "8BIM"%string →
  PSDLayer.parse
    (Cursor p (layer_bytes r (Z.of_nat (length chans)) chans bim key opacity
                 clipping flags ++ tail))
  = Raise AssertionError.
Proof.
  intros Hn Hb Hk Hne.
  rewrite layer_parse_bytes; [|rewrite to_signed_16; lia|done..].
  unfold layer_outcome. now rewrite bool_decide_eq_false_2.
Qed.

Lemma layer_bad_signature_witness :
  PSDLayer.parse
    (Cursor 0 (layer_bytes (Rectangle 0 0 4 4) (Z.of_nat (length [(0, 16)]))
                 [(0, 16)] "8BPS" "norm" 255 0 Byte.x00 ++ []))
  = Raise AssertionError.
Proof.
  apply (layer_bad_signature (Rectangle 0 0 4 4) [(0, 16)] "8BPS" "norm" 255 0
           Byte.x00 [] 0); first [reflexivity | discriminate | (cbn; lia)].
Defined.

(** A layer record with a good signature and blend key and a clipping
    byte other than 0 and 1 fails on the clipping table, with a
    [KeyError] on that byte. *)
Theorem layer_bad_clipping (r : rectangle_t) (chans : list (Z * Z))
    (key name : string) (opacity clipping : Z) (flags : byte)
    (tail : list byte) (p : Z) :
  Z.of_nat (length chans) < 2 ^ 15 →
  String.length key = 4%nat →
  PSDLayer.blendMap !! key = Some name →
  2 <= clipping < 256 →
  PSDLayer.parse
    (Cursor p (layer_bytes r (Z.of_nat (length chans)) chans "8BIM" key opacity
                 clipping flags ++ tail))
  = Raise (KeyError (PyInt clipping)).
Proof.
  intros Hn Hk Hb Hc.
  rewrite layer_parse_bytes; [|rewrite to_signed_16; lia|done..].
  unfold layer_outcome. rewrite bool_decide_eq_true_2 by done.
  rewrite Hb, Z.mod_small by lia.
  unfold PSDLayer.clippingMap. cbn [list_to_map foldr fst snd].
  now rewrite !lookup_insert_ne, lookup_empty by lia.
Qed.

Lemma layer_bad_clipping_witness :
  PSDLayer.parse
    (Cursor 0 (layer_bytes (Rectangle 0 0 4 4) (Z.of_nat (length [(0, 16)]))
                 [(0, 16)] "8BIM" "norm" 255 2 Byte.x00 ++ []))
  = Raise (KeyError (PyInt 2)).
Proof.
  apply (layer_bad_clipping (Rectangle 0 0 4 4) [(0, 16)] "norm" "normal" 255 2
           Byte.x00 [] 0); first [reflexivity | lia | (cbn; lia)].
Defined.

(** A channel count that is zero or negative runs the channel loop no
    time: the blend signature is read right behind the count, the
    channel dict stays empty and the count is kept as read. *)
Theorem layer_nonpositive_channel_count (r : rectangle_t) (count : Z)
    (key name : string) (opacity clipping : Z) (cname : string) (flags : byte)
    (tail : list byte) (p : Z) :
  - 2 ^ 15 <= count <= 0 →
  String.length key = 4%nat →
  PSDLayer.blendMap !! key = Some name →
  PSDLayer.clippingMap !! (clipping mod 256) = Some cname →
  ∃ layer,
    PSDLayer.parse
      (Cursor p (layer_bytes r count [] "8BIM" key opacity clipping flags ++ tail))
    = Ok layer (Cursor (p + 29) tail)
    ∧ PSDLayer.chanelsCount layer = count
    ∧ PSDLayer.channels layer = ∅.
Proof.
  intros Hc Hk Hb Hcl.
  rewrite layer_parse_bytes; [|rewrite to_signed_16 by lia; cbn; lia|done..].
  unfold layer_outcome. rewrite bool_decide_eq_true_2 by done.
  rewrite Hb, Hcl, to_signed_16 by lia.
  replace (p + 29 + 6 * Z.of_nat (@length (Z * Z) [])) with (p + 29)
    by (cbn [length]; lia).
  eexists. split; [reflexivity|]. split; reflexivity.
Qed.

Lemma layer_nonpositive_channel_count_witness :
  ∃ layer,
    PSDLayer.parse
      (Cursor 0 (layer_bytes (Rectangle 0 0 4 4) (-2) [] "8BIM" "diff" 255 0
                   Byte.x00 ++ []))
    = Ok layer (Cursor (0 + 29) [])
    ∧ PSDLayer.chanelsCount layer = -2
    ∧ PSDLayer.channels layer = ∅.
Proof.
  apply (layer_nonpositive_channel_count (Rectangle 0 0 4 4) (-2) "diff"
           "difference" 255 0 "base" Byte.x00 [] 0);
    first [reflexivity | lia].
Defined.

(** ** Every decoded layer and mask section *)

Lemma consumed_refl f : consumed 0 f f.
Proof.
  split; [lia|]. unfold advance. destruct f; cbn. f_equal. lia.
Qed.

Lemma read_layers_inv n acc f layers f' :
  PSDLayerMask.read_layers n acc f = Ok layers f' →
  ∃ new, layers = acc ++ new ∧ length new = n
         ∧ consumed (Z.to_nat (layers_size new)) f f'
         ∧ 0 <= layers_size new.
Proof.
  revert acc f. induction n as [|n IH]; intros acc f.
  - cbn. intros [= <- <-]. exists []. rewrite app_nil_r.
    split; [done|]. split; [done|]. split; [apply consumed_refl | done].
  - cbn [PSDLayerMask.read_layers]. intros H. bind_step H L.
    unfold PSDLayer.init, construct in L.
    apply layer_parse_inv in L as (_ & _ & _ & _ & L).
    apply IH in H as (new & -> & Hlen & C & Hpos).
    exists (a :: new). rewrite <- app_assoc. cbn [app length layers_size foldr].
    fold (layers_size new).
    assert (Hs : 0 <= layer_size a) by (unfold layer_size; lia).
    repeat split; [congruence| | |lia].
    + destruct (consumed_trans _ _ _ _ _ L C) as [LL _].
      unfold layer_size in *. lia.
    + destruct (consumed_trans _ _ _ _ _ L C) as [_ ->]. f_equal.
      unfold layer_size in *. lia.
Qed.

Lemma skip_consumed n f u f' :
  skip n f = Ok u f' → consumed (Z.to_nat n) f f'.
Proof. intros H. now apply skip_inv in H as (L & ->). Qed.

Lemma readInt_nonneg f n f' : readInt f = Ok n f' → 0 <= n.
Proof. intros H. now apply readInt_Ok in H. Qed.

Lemma layer_mask_parse_inv f obj f' :
  PSDLayerMask.parse f = Ok obj f' →
  0 <= PSDLayerMask.length obj
  ∧ 0 <= PSDLayerMask.layerInfoLength obj
  ∧ 0 <= PSDLayerMask.layersCount obj
  ∧ length (PSDLayerMask.layers obj) = Z.to_nat (PSDLayerMask.layersCount obj)
  ∧ 0 <= PSDLayerMask.masklength obj
  ∧ 0 <= layers_size (PSDLayerMask.layers obj)
  ∧ consumed (Z.to_nat (14 + layers_size (PSDLayerMask.layers obj)
                        + PSDLayerMask.masklength obj)) f f'.
Proof.
  unfold PSDLayerMask.parse, updateLength. intros H.
  bind_step H C1. pose proof (readInt_nonneg _ _ _ C1) as P1.
  apply readInt_consumed in C1.
  bind_step H C2. pose proof (readInt_nonneg _ _ _ C2) as P2.
  apply readInt_consumed in C2.
  bind_step H C3. apply readShortInt_consumed in C3.
  bind_step H C4. apply read_layers_inv in C4 as (new & -> & Hlen & C4 & Hpos).
  bind_step H C5. pose proof (readInt_nonneg _ _ _ C5) as P5.
  apply readInt_consumed in C5.
  bind_step H C6. apply skip_consumed in C6.
  injection H as <- <-.
  cbn [PSDLayerMask.length PSDLayerMask.layerInfoLength PSDLayerMask.layersCount
       PSDLayerMask.layers PSDLayerMask.masklength app].
  pose proof (consumed_trans _ _ _ _ _ C1 C2) as C.
  pose proof (consumed_trans _ _ _ _ _ C C3) as C'. clear C.
  pose proof (consumed_trans _ _ _ _ _ C' C4) as C. clear C'.
  pose proof (consumed_trans _ _ _ _ _ C C5) as C'. clear C.
  pose proof (consumed_trans _ _ _ _ _ C' C6) as C. clear C'.
  repeat split; try done.
  - destruct (Z.ltb_spec a1 0); lia.
  - destruct C as [C _]. lia.
  - destruct C as [_ ->]. f_equal. lia.
Qed.



(** The bytes a layer and mask section takes from the file depend on
    what it decodes, not on the two lengths it declares: behind the
    four bytes of the total length the cursor advances by 10, by 29
    bytes and six per channel entry for each layer, and by the mask
    length. *)
Theorem layer_mask_consumes (f : cursor) (obj : PSDLayerMask.t) (f' : cursor) :
  PSDLayerMask.parse f = Ok obj f' →
  tell f' - (tell f + 4)
  = 10 + layers_size (PSDLayerMask.layers obj) + PSDLayerMask.masklength obj
  ∧ getsize f' = getsize f.
Proof.
  intros H. apply layer_mask_parse_inv in H as (_ & _ & _ & _ & Hm & Hs & L & ->).
  unfold getsize, advance. cbn [tell rest]. rewrite length_drop. lia.
Qed.

Lemma layer_mask_consumes_witness :
  tell (Cursor 17 []) - (tell (Cursor 0 (be32 99 ++ be32 0 ++ be16 0 ++ be32 3
                                         ++ be_bytes 3 0)) + 4)
  = 10 + layers_size (PSDLayerMask.layers (PSDLayerMask.Make 99 0 0 [] 3))
    + PSDLayerMask.masklength (PSDLayerMask.Make 99 0 0 [] 3)
  ∧ getsize (Cursor 17 [])
    = getsize (Cursor 0 (be32 99 ++ be32 0 ++ be16 0 ++ be32 3 ++ be_bytes 3 0)).
Proof.
  refine (layer_mask_consumes
            (Cursor 0 (be32 99 ++ be32 0 ++ be16 0 ++ be32 3 ++ be_bytes 3 0))
            (PSDLayerMask.Make 99 0 0 [] 3) (Cursor 17 []) _).
  vm_compute. reflexivity.
Defined.

(** ** Sections read back *)

Lemma layer_size_of_fields l :
  layer_size (layer_of_fields l) = 29 + 6 * Z.of_nat (length (lf_channels l)).
Proof. unfold layer_size, layer_of_fields. cbn [PSDLayer.chanelsCount]. lia. Qed.

Lemma read_layers_records records acc tail p :
  Forall layer_fields_ok records →
  PSDLayerMask.read_layers (length records) acc
    (Cursor p (concat (map layer_record records) ++ tail))
  = Ok (acc ++ map layer_of_fields records)
       (Cursor (p + layers_size (map layer_of_fields records)) tail).
Proof.
  revert acc p. induction records as [|l records IH]; intros acc p Hok.
  - cbn. rewrite app_nil_r. do 2 f_equal. lia.
  - apply Forall_cons in Hok as [Hl Hok].
    cbn [length map concat PSDLayerMask.read_layers]. rewrite <- app_assoc.
    unfold PSDLayer.init, construct.
    erewrite bind_Ok by (now apply layer_record_parse).
    rewrite IH by done. rewrite <- app_assoc. cbn [app layers_size foldr].
    fold (layers_size (map layer_of_fields records)).
    rewrite layer_size_of_fields. do 2 f_equal. lia.
Qed.

Lemma layer_mask_round_trip_lemma total info count records mask tail p :
  0 <= total < 2 ^ 32 → 0 <= info < 2 ^ 32 →
  - 2 ^ 15 <= count < 2 ^ 15 →
  Z.abs count = Z.of_nat (length records) →
  Forall layer_fields_ok records →
  Z.of_nat (length mask) < 2 ^ 32 →
  PSDLayerMask.parse
    (Cursor p (layer_mask_bytes total info count records mask ++ tail))
  = Ok (PSDLayerMask.Make total info (Z.of_nat (length records))
          (map layer_of_fields records) (Z.of_nat (length mask)))
       (Cursor (p + 14 + layers_size (map layer_of_fields records)
                + Z.of_nat (length mask)) tail).
Proof.
  intros Ht Hi Hc Habs Hok Hm. unfold layer_mask_bytes.
  rewrite <- !app_assoc. rewrite layer_mask_parse_bytes by done.
  rewrite Habs, Nat2Z.id.
  erewrite bind_Ok by (now apply read_layers_records).
  erewrite bind_Ok by (apply readInt_be32_unsigned; lia).
  erewrite bind_Ok by (now apply skip_app).
  unfold mret, M_ret. cbn [app]. do 2 f_equal. lia.
Qed.

(** Round trip of a whole layer and mask section: with a count field of
    [n] or of [- n] in front of [n] layer records that fit, and a mask
    block behind them, the section decodes to the two declared lengths
    as written, the count [n], the [n] layers in file order and the
    mask length, and leaves the cursor behind the mask block. *)
Theorem layer_mask_round_trip (total info count : Z) (records : list layer_fields)
    (mask tail : list byte) (p : Z) :
  0 <= total < 2 ^ 32 → 0 <= info < 2 ^ 32 →
  - 2 ^ 15 <= count < 2 ^ 15 →
  Z.abs count = Z.of_nat (length records) →
  Forall layer_fields_ok records →
  Z.of_nat (length mask) < 2 ^ 32 →
  PSDLayerMask.parse
    (Cursor p (layer_mask_bytes total info count records mask ++ tail))
  = Ok (PSDLayerMask.Make total info (Z.of_nat (length records))
          (map layer_of_fields records) (Z.of_nat (length mask)))
       (Cursor (p + 14 + layers_size (map layer_of_fields records)
                + Z.of_nat (length mask)) tail).
Proof. apply layer_mask_round_trip_lemma. Qed.

Lemma layer_mask_round_trip_witness :
  PSDLayerMask.parse
    (Cursor 34
       (layer_mask_bytes 80 72 (-2)
          [LayerFields (Rectangle 0 0 4 4) [(0, 16); (-1, 16)] "norm" 255 0 Byte.x02;
           LayerFields (Rectangle 1 1 3 3) [] "diff" 10 1 Byte.x00]
          [Byte.x00; Byte.x01] ++ be16 0))
  = Ok (PSDLayerMask.Make 80 72
          (Z.of_nat (length
             [LayerFields (Rectangle 0 0 4 4) [(0, 16); (-1, 16)] "norm" 255 0 Byte.x02;
              LayerFields (Rectangle 1 1 3 3) [] "diff" 10 1 Byte.x00]))
          (map layer_of_fields
             [LayerFields (Rectangle 0 0 4 4) [(0, 16); (-1, 16)] "norm" 255 0 Byte.x02;
              LayerFields (Rectangle 1 1 3 3) [] "diff" 10 1 Byte.x00])
          (Z.of_nat (length [Byte.x00; Byte.x01])))
       (Cursor (34 + 14
                + layers_size
                    (map layer_of_fields
                       [LayerFields (Rectangle 0 0 4 4) [(0, 16); (-1, 16)] "norm"
                          255 0 Byte.x02;
                        LayerFields (Rectangle 1 1 3 3) [] "diff" 10 1 Byte.x00])
                + Z.of_nat (length [Byte.x00; Byte.x01])) (be16 0)).
Proof.
  apply (layer_mask_round_trip 80 72 (-2)
           [LayerFields (Rectangle 0 0 4 4) [(0, 16); (-1, 16)] "norm" 255 0 Byte.x02;
            LayerFields (Rectangle 1 1 3 3) [] "diff" 10 1 Byte.x00]
           [Byte.x00; Byte.x01] (be16 0) 34); try lia; try reflexivity.
  apply Forall_cons; split; [|apply Forall_cons; split; [|apply Forall_nil_2]];
    unfold layer_fields_ok; cbn;
    repeat split;
    first [lia | reflexivity | by eexists | (left; reflexivity)
          | (right; reflexivity)].
Defined.

(** ** The image data section *)

Lemma gets_inv {A} (g : cursor → A) f a f' : gets g f = Ok a f' → a = g f ∧ f' = f.
Proof. now intros [= <- <-]. Qed.

(** The image data section reads the two bytes of the compression code
    and no pixel byte: [bytesleft] is the number of bytes that follow
    the code up to the end of the file, and the cursor stays on the
    first of them. *)
Theorem image_data_bytes_left (f : cursor) (obj : PSDImageData.t) (f' : cursor) :
  PSDImageData.parse f = Ok obj f' →
  tell f' = tell f + 2
  ∧ rest f' = drop 2 (rest f)
  ∧ PSDImageData.bytesleft obj = Z.of_nat (length (rest f'))
  ∧ PSDImageData.bytesleft obj = getsize f - tell f - 2.
Proof.
  unfold PSDImageData.parse, ImageDataCompression.init. intros H.
  bind_step H C. apply readShortInt_inv in C as (L & _ & ->).
  bind_step H Hn. bind_step Hn Hg. apply getitem_Ok_inv in Hg as (_ & ->).
  injection Hn as _ <-.
  bind_step H Hs. apply gets_inv in Hs as (-> & ->).
  bind_step H Hp. apply gets_inv in Hp as (-> & ->).
  injection H as <- <-.
  unfold getsize, advance. cbn [tell rest PSDImageData.bytesleft].
  rewrite length_drop. repeat split; lia.
Qed.

Lemma image_data_bytes_left_witness :
  tell (Cursor 46 (be32 7)) = 44 + 2
  ∧ rest (Cursor 46 (be32 7)) = drop 2 (rest (Cursor 44 (be16 1 ++ be32 7)))
  ∧ PSDImageData.bytesleft
      (PSDImageData.Make (ImageDataCompression.Make 1 "RLE compressed") 4)
    = Z.of_nat (length (rest (Cursor 46 (be32 7))))
  ∧ PSDImageData.bytesleft
      (PSDImageData.Make (ImageDataCompression.Make 1 "RLE compressed") 4)
    = getsize (Cursor 44 (be16 1 ++ be32 7)) - tell (Cursor 44 (be16 1 ++ be32 7)) - 2.
Proof.
  refine (image_data_bytes_left (Cursor 44 (be16 1 ++ be32 7))
            (PSDImageData.Make (ImageDataCompression.Make 1 "RLE compressed") 4)
            (Cursor 46 (be32 7)) _).
  vm_compute. reflexivity.
Defined.

(** ** The five sections on one file *)

Lemma section_parse_bytes payload tail p :
  Z.of_nat (length payload) < 2 ^ 32 →
  PSDColorMode.parse (Cursor p (section_bytes payload ++ tail))
  = Ok (PSDColorMode.Make (Z.of_nat (length payload)) (Z.of_nat (length payload)))
       (Cursor (p + 4 + Z.of_nat (length payload)) tail)
  ∧ PSDImageResources.parse (Cursor p (section_bytes payload ++ tail))
    = Ok (PSDImageResources.Make (Z.of_nat (length payload)))
         (Cursor (p + 4 + Z.of_nat (length payload)) tail).
Proof.
  intros Hl. unfold section_bytes, PSDColorMode.parse, PSDImageResources.parse,
    updateLength.
  rewrite <- !app_assoc.
  split.
  - erewrite bind_Ok by (apply readInt_be32_unsigned; lia).
    now erewrite bind_Ok by (now apply skip_app).
  - erewrite bind_Ok by (apply readInt_be32_unsigned; lia).
    now erewrite bind_Ok by (now apply skip_app).
Qed.

Lemma image_data_parse_bytes code name pixels p :
  ImageDataCompression.codeMap !! code = Some name →
  PSDImageData.parse (Cursor p (be16 code ++ pixels))
  = Ok (PSDImageData.Make (ImageDataCompression.Make code name)
          (Z.of_nat (length pixels)))
       (Cursor (p + 2) pixels).
Proof.
  intros Hc.
  assert (Hr : - 2 ^ 15 <= code < 2 ^ 15).
  { apply elem_of_list_to_map_2 in Hc.
    rewrite !elem_of_cons, elem_of_nil in Hc.
    destruct Hc as [[= -> _]|[[= -> _]|[]]]; lia. }
  unfold PSDImageData.parse, ImageDataCompression.init.
  erewrite bind_Ok by (now apply readShortInt_be16_signed).
  erewrite bind_Ok by (rewrite bind_getitem, Hc; reflexivity).
  erewrite bind_Ok by reflexivity. erewrite bind_Ok by reflexivity.
  unfold mret, M_ret, getsize. cbn [tell rest]. do 3 f_equal. lia.
Qed.

(** The five decoders, constructed one after the other on one file
    that holds a valid header, two length-delimited sections, a layer
    and mask section with records that fit and an image data section,
    each start where the one before stopped: the header at offset 0,
    and the image data section right behind the mask block, with all
    the pixel bytes left to read. *)
Theorem document_sections_in_order (reserved : list byte)
    (channels rows columns depth mode : Z) (label : string)
    (color resources : list byte)
    (total info count : Z) (records : list layer_fields) (mask : list byte)
    (compression : Z) (name : string) (pixels : list byte) :
  length reserved = 6%nat →
  1 <= channels <= 56 → 1 <= rows <= 30000 → 1 <= columns <= 30000 →
  depth = 1 ∨ depth = 8 ∨ depth = 16 →
  PSDHeader.colorModeMap !! mode = Some label →
  Z.of_nat (length color) < 2 ^ 32 →
  Z.of_nat (length resources) < 2 ^ 32 →
  0 <= total < 2 ^ 32 → 0 <= info < 2 ^ 32 →
  - 2 ^ 15 <= count < 2 ^ 15 →
  Z.abs count = Z.of_nat (length records) →
  Forall layer_fields_ok records →
  Z.of_nat (length mask) < 2 ^ 32 →
  ImageDataCompression.codeMap !! compression = Some name →
  ∃ f1 f2 f3 f4 f5,
    PSDHeader.init
      (Cursor 0 (document_bytes reserved channels rows columns depth mode color
                   resources total info count records mask compression pixels))
    = Ok (PSDHeader.Make SIGNATURE VERSION channels rows columns depth
            (PSDHeader.ColorMode mode label)) f1
    ∧ tell f1 = 26
    ∧ PSDColorMode.init f1
      = Ok (PSDColorMode.Make (Z.of_nat (length color)) (Z.of_nat (length color))) f2
    ∧ PSDImageResources.init f2
      = Ok (PSDImageResources.Make (Z.of_nat (length resources))) f3
    ∧ PSDLayerMask.init f3
      = Ok (PSDLayerMask.Make total info (Z.of_nat (length records))
              (map layer_of_fields records) (Z.of_nat (length mask))) f4
    ∧ PSDImageData.init f4
      = Ok (PSDImageData.Make (ImageDataCompression.Make compression name)
              (Z.of_nat (length pixels))) f5
    ∧ rest f5 = pixels
    ∧ getsize f5 = tell f5 + Z.of_nat (length pixels).
Proof.
  intros Hr Hc Hh Hw Hd Hm Hcol Hres Ht Hi Hcnt Habs Hok Hmask Hcomp.
  assert (Hmode : - 2 ^ 15 <= mode < 2 ^ 15).
  { apply elem_of_list_to_map_2 in Hm.
    rewrite !elem_of_cons, elem_of_nil in Hm.
    repeat (destruct Hm as [Hm|Hm]; [injection Hm as -> _; lia|]).
    contradiction. }
  unfold document_bytes.
  unfold PSDHeader.init, PSDColorMode.init, PSDImageResources.init,
    PSDLayerMask.init, PSDImageData.init, construct.
  set (t4 := be16 compression ++ pixels).
  set (t3 := layer_mask_bytes total info count records mask ++ t4).
  set (t2 := section_bytes resources ++ t3).
  set (t1 := section_bytes color ++ t2).
  set (p2 := 0 + 26 + 4 + Z.of_nat (length color)).
  set (p3 := p2 + 4 + Z.of_nat (length resources)).
  set (p4 := p3 + 14 + layers_size (map layer_of_fields records)
             + Z.of_nat (length mask)).
  exists (Cursor (0 + 26) t1), (Cursor p2 t2), (Cursor p3 t3), (Cursor p4 t4),
    (Cursor (p4 + 2) pixels).
  split.
  { cbn [tell]. rewrite bool_decide_eq_false_2 by (intros N; now apply N).
    rewrite header_parse_bytes by (first [assumption | reflexivity | lia]).
    rewrite (to_signed_16 VERSION) by (unfold VERSION; lia).
    rewrite !to_signed_16 by (first [assumption | lia]).
    rewrite header_outcome_checked by assumption. rewrite Hm. reflexivity. }
  split; [reflexivity|].
  split; [exact (proj1 (section_parse_bytes color t2 (0 + 26) Hcol))|].
  split; [exact (proj2 (section_parse_bytes resources t3 p2 Hres))|].
  split; [exact (layer_mask_round_trip_lemma total info count records mask t4 p3
                   Ht Hi Hcnt Habs Hok Hmask)|].
  split; [exact (image_data_parse_bytes compression name pixels p4 Hcomp)|].
  split; [reflexivity|]. unfold getsize. cbn [tell rest]. lia.
Qed.

Lemma document_sections_in_order_witness :
  ∃ f1 f2 f3 f4 f5,
    PSDHeader.init
      (Cursor 0 (document_bytes (replicate 6 Byte.x00) 3 10 10 8 3 [] [] 0 0 0 []
                   [] 0 (be32 7)))
    = Ok (PSDHeader.Make SIGNATURE VERSION 3 10 10 8
            (PSDHeader.ColorMode 3 "RGB Color")) f1
    ∧ tell f1 = 26
    ∧ PSDColorMode.init f1
      = Ok (PSDColorMode.Make (Z.of_nat (@length byte []))
              (Z.of_nat (@length byte []))) f2
    ∧ PSDImageResources.init f2
      = Ok (PSDImageResources.Make (Z.of_nat (@length byte []))) f3
    ∧ PSDLayerMask.init f3
      = Ok (PSDLayerMask.Make 0 0 (Z.of_nat (@length layer_fields []))
              (map layer_of_fields []) (Z.of_nat (@length byte []))) f4
    ∧ PSDImageData.init f4
      = Ok (PSDImageData.Make (ImageDataCompression.Make 0 "Raw data")
              (Z.of_nat (length (be32 7)))) f5
    ∧ rest f5 = be32 7
    ∧ getsize f5 = tell f5 + Z.of_nat (length (be32 7)).
Proof.
  apply (document_sections_in_order (replicate 6 Byte.x00) 3 10 10 8 3
           "RGB Color" [] [] 0 0 0 [] [] 0 "Raw data" (be32 7));
    first [reflexivity | lia | (right; left; reflexivity) | apply Forall_nil_2
          | (cbn; lia)].
Defined.
